(** * gmt/figure.py: the Figure class of gmt-python

    A shallow embedding of [gmt/figure.py] and the proofs of the properties
    its specification states.  Python code becomes functions in a small
    exception-and-state monad; the state is the part of the outside world the
    module touches: the log of native engine calls, the child processes it
    starts, the file system and the generator of temporary names. *)

From Stdlib Require Import ZArith String Ascii List Lia Bool.
From Stdlib.Strings Require Import Byte.
From stdpp Require Import base gmap strings.
Import ListNotations.
Local Open Scope string_scope.
Local Open Scope list_scope.

(** ** Python strings *)

Module Str.

(** [s[:n]] and [s[n:]] for a non-negative index. *)
Fixpoint take (n : nat) (s : string) : string :=
  match n, s with
  | S n', String a s' => String a (take n' s')
  | _, _ => ""
  end.

Fixpoint drop (n : nat) (s : string) : string :=
  match n, s with
  | S n', String _ s' => drop n' s'
  | _, _ => s
  end.

(** [s.rfind(c)] for a one-character [c]: the highest index, or -1. *)
Fixpoint rfind (c : ascii) (s : string) : Z :=
  match s with
  | EmptyString => (-1)%Z
  | String a s' =>
      let r := rfind c s' in
      if (0 <=? r)%Z then (r + 1)%Z
      else if Ascii.eqb a c then 0%Z else (-1)%Z
  end.

(** [s.startswith(p)] and [s.endswith(c)]. *)
Definition startswith (p s : string) : bool := String.prefix p s.

Fixpoint endswith (c : ascii) (s : string) : bool :=
  match s with
  | EmptyString => false
  | String a EmptyString => Ascii.eqb a c
  | String _ s' => endswith c s'
  end.

(** [str.upper] on the ASCII letters, the only characters the format
    codes of [savefig] are made of. *)
Definition upper_char (a : ascii) : ascii :=
  let n := nat_of_ascii a in
  if (97 <=? n)%nat && (n <=? 122)%nat then ascii_of_nat (n - 32) else a.

Fixpoint upper (s : string) : string :=
  match s with
  | EmptyString => ""
  | String a s' => String (upper_char a) (upper s')
  end.

(** Does the character occur in the string? *)
Fixpoint mem (c : ascii) (s : string) : bool :=
  match s with
  | EmptyString => false
  | String a s' => Ascii.eqb a c || mem c s'
  end.

(** The double quote, for the HTML snippet. *)
Definition dquote : string := String (ascii_of_nat 34) "".

End Str.

(** ** [os.path] (posixpath) *)

Module os_path.

Definition sep : ascii := "/"%char.
Definition extsep : ascii := "."%char.
Definition curdir : string := ".".

(** [genericpath._splitext]: the loop that skips the leading dots of the
    last component.  [n] counts the iterations left, [dotIndex -
    filenameIndex]; the result tells whether the loop returned the split
    from inside its body. *)
Fixpoint splitext_loop (p : string) (n : nat) (filenameIndex : nat) : bool :=
  match n with
  | O => false
  | S n' =>
      if negb (String.eqb (substring filenameIndex 1 p) (String extsep ""))
      then true
      else splitext_loop p n' (S filenameIndex)
  end.

Definition splitext (p : string) : string * string :=
  let sepIndex := Str.rfind sep p in
  let dotIndex := Str.rfind extsep p in
  if (sepIndex <? dotIndex)%Z then
    let filenameIndex := (sepIndex + 1)%Z in
    if splitext_loop p (Z.to_nat (dotIndex - filenameIndex))
                     (Z.to_nat filenameIndex)
    then (Str.take (Z.to_nat dotIndex) p, Str.drop (Z.to_nat dotIndex) p)
    else (p, "")
  else (p, "").

(** [posixpath.split]. Only the tail is used by the module; the head is
    returned before the removal of its trailing slashes. *)
Definition split_tail (p : string) : string :=
  let i := (Str.rfind sep p + 1)%Z in
  Str.drop (Z.to_nat i) p.

(** [posixpath.join] of two components. *)
Definition join (a b : string) : string :=
  if Str.startswith (String sep "") b then b
  else if String.eqb a "" || Str.endswith sep a then a +:+ b
  else a +:+ String sep "" +:+ b.

End os_path.

(** ** Python values, keyword dictionaries and exceptions *)

(** The values the module handles: the keyword options of [psconvert] are
    strings, booleans and numbers; previews are file names or bytes; the
    notebook image is [IPython.display.Image(data=..., width=...)]. *)
Inductive pyval : Type :=
  | VNone
  | VBool (b : bool)
  | VInt (n : Z)
  | VStr (s : string)
  | VBytes (data : list byte)
  | VImage (data width : pyval).

(** A [dict] keeps its keys in insertion order, and [**kwargs] passes them
    on in that order: an association list with distinct keys. *)
Definition dict (V : Type) : Type := list (string * V).

Module Dict.
Section Ops.
Context {V : Type}.

(** [d.get(k)], [None] when the key is absent. *)
Fixpoint get (k : string) (d : dict V) : option V :=
  match d with
  | [] => None
  | (k', v) :: d' => if String.eqb k' k then Some v else get k d'
  end.

(** [k in d]. *)
Definition mem (k : string) (d : dict V) : bool :=
  match get k d with Some _ => true | None => false end.

(** [d[k] = v]: in place for a key of [d], at the end for a new one. *)
Fixpoint set (k : string) (v : V) (d : dict V) : dict V :=
  match d with
  | [] => [(k, v)]
  | (k', v') :: d' =>
      if String.eqb k' k then (k, v) :: d' else (k', v') :: set k v d'
  end.

Definition keys (d : dict V) : list string := map fst d.

(** Does a key of [d1] occur in [d2]? *)
Definition clash (d1 d2 : dict V) : bool :=
  existsb (fun k => mem k d2) (keys d1).

End Ops.
End Dict.

Inductive exn : Type :=
  | AssertionError (msg : string)
  | TypeError
  | KeyError (key : string)
  | AttributeError (attr : string)
  | FileExistsError
  | FileNotFoundError
  | IsADirectoryError
  | GMTCLibError.

(** ** The world outside the module *)

(** A path of the file system holds a file or a directory. *)
Inductive node : Type :=
  | File (data : list byte)
  | Dir.

(** Where a child process sends an output stream. *)
Inductive stream : Type :=
  | Inherited
  | DEVNULL.

(** What the module asks of the operating system: starting a child process
    with its two output streams, waiting for a child to exit, and opening
    a tab of the web browser. *)
Inductive os_event : Type :=
  | Popen (argv : list string) (stdout stderr : stream)
  | Wait (argv : list string)
  | BrowserTab (url : string).

(** A call of [LibGMT.call_module]: the module name and the argument
    string. *)
Definition native_call : Type := string * string.

Record World : Type := mkWorld {
  calls : list native_call;      (* native engine calls, oldest first *)
  procs : list os_event;         (* operating-system requests, oldest first *)
  fs : gmap string node;         (* the file system, by path *)
  rng : nat                      (* random draws consumed by [tempfile] *)
}.

Definition set_calls (c : list native_call) (w : World) : World :=
  mkWorld c (procs w) (fs w) (rng w).
Definition set_procs (p : list os_event) (w : World) : World :=
  mkWorld (calls w) p (fs w) (rng w).
Definition set_fs (f : gmap string node) (w : World) : World :=
  mkWorld (calls w) (procs w) f (rng w).
Definition set_rng (r : nat) (w : World) : World :=
  mkWorld (calls w) (procs w) (fs w) r.

(** What the code of this file takes from its surroundings: the native
    engine, the helpers of the package that are defined in other modules,
    the interpreter's platform and the operating system. *)
Record Env : Type := mkEnv {
  (* The engine behind [LibGMT.call_module]: from the calls made so far,
     the present call last, and the file system, the new file system, or
     [None] when the engine reports a failure. *)
  engine : list native_call -> gmap string node -> option (gmap string node);
  (* [gmt.decorators.use_alias], applied to its table of aliases. *)
  use_alias : dict string -> dict pyval -> dict pyval;
  (* [gmt.decorators.kwargs_to_strings()]. *)
  kwargs_to_strings : dict pyval -> dict pyval;
  (* [gmt.utils.build_arg_string]. *)
  build_arg_string : dict pyval -> string;
  (* [sys.platform]. *)
  platform : string;
  (* Running a program to its end: its exit status, or [None] when the
     program cannot be started. *)
  exec : list string -> option Z;
  (* The random integers [tempfile] draws its names from. *)
  rand : nat -> nat;
  (* [tempfile.TMP_MAX] and [tempfile.gettempdir()]. *)
  TMP_MAX : nat;
  tempdir : string;
  (* Is [IPython.display.Image] importable? *)
  IPython : bool;
  (* [base64.encodebytes(b).decode('utf-8')]. *)
  b64encode : list byte -> string
}.

(** ** Exceptions and state *)

Inductive outcome (A : Type) : Type :=
  | Return (a : A)
  | Raise (e : exn).
Arguments Return {A} a.
Arguments Raise {A} e.

(** A computation on a state [S] that returns or raises; the state
    reached is kept in both cases. *)
Definition M (S A : Type) : Type := S -> outcome A * S.

Definition ret {S A} (a : A) : M S A := fun s => (Return a, s).
Definition raise {S A} (e : exn) : M S A := fun s => (Raise e, s).
Definition bind {S A B} (m : M S A) (k : A -> M S B) : M S B :=
  fun s =>
    match m s with
    | (Return a, s') => k a s'
    | (Raise e, s') => (Raise e, s')
    end.
Definition gets {S A} (f : S -> A) : M S A := fun s => (Return (f s), s).
Definition modify {S} (f : S -> S) : M S unit := fun s => (Return tt, f s).

Notation "x <- c1 ;; c2" := (bind c1 (fun x => c2))
  (at level 100, c1 at next level, right associativity).
Notation "c1 ;; c2" := (bind c1 (fun _ => c2))
  (at level 100, right associativity).

(** The [assert] statement, with assertions enabled (the interpreter's
    default). *)
Definition assert {S} (cond : bool) (msg : string) : M S unit :=
  if cond then ret tt else raise (AssertionError msg).

(** ** The functions of the module *)

Section Functions.
Variable env : Env.

(** Modelled from the spec: [LibGMT] of [gmt/clib] is not part of the
    sources.  The specification describes it as "a call interface taking a
    module name and an argument string", "synchronous" and "raising on
    engine-reported failure".  The block [with LibGMT() as lib:
    lib.call_module(module, args)] records the call and lets the engine
    act on the file system or fail. *)
Definition call_module (module args : string) : M World unit :=
  fun w =>
    let log := calls w ++ [(module, args)] in
    match engine env log (fs w) with
    | Some fs' => (Return tt, set_fs fs' (set_calls log w))
    | None => (Raise GMTCLibError, set_calls log w)
    end.

Definition figure (name : string) : M World unit :=
  (* Passing format '-' tells gmt.end to not produce any files. *)
  let fmt := "-" in
  call_module "figure" (name +:+ " " +:+ fmt).

(** *** [tempfile] *)

(** [_RandomNameSequence]: eight characters chosen at random. *)
Definition characters : string := "abcdefghijklmnopqrstuvwxyz0123456789_".

Definition choose (r : nat) : ascii :=
  match String.get (r mod String.length characters) characters with
  | Some c => c
  | None => "a"%char
  end.

Fixpoint random_name (k i : nat) : string :=
  match k with
  | O => ""
  | S k' => String (choose (rand env i)) (random_name k' (S i))
  end.

Definition next_name : M World string :=
  fun w => (Return (random_name 8 (rng w)), set_rng (rng w + 8) w).

(** The loop of [_mkstemp_inner] and of [mkdtemp]: candidate names are
    tried until one is free; the creation ([O_EXCL], [mkdir]) refuses a
    path that exists.  [what] is the node created. *)
Fixpoint mktemp_loop (tries : nat) (what : node) (dir pre : string)
  : M World string :=
  match tries with
  | O => raise FileExistsError
  | S tries' =>
      name <- next_name ;;
      let file := os_path.join dir (pre +:+ name) in
      taken <- gets (fun w => fs w !! file) ;;
      match taken with
      | Some _ => mktemp_loop tries' what dir pre
      | None => modify (fun w => set_fs (<[file := what]> (fs w)) w) ;; ret file
      end
  end.

(** [NamedTemporaryFile(prefix=..., dir=..., delete=True)]; the result is
    the [name] of the file object. *)
Definition NamedTemporaryFile (prefix dir : string) : M World string :=
  mktemp_loop (TMP_MAX env) (File []) dir prefix.

(** [tmpfile.close()] of a file made with [delete=True]. *)
Definition tmpfile_close (name : string) : M World unit :=
  modify (fun w => set_fs (delete name (fs w)) w).

(** [TemporaryDirectory(prefix=...)]; the result is its [name]. *)
Definition TemporaryDirectory (prefix : string) : M World string :=
  mktemp_loop (TMP_MAX env) Dir (tempdir env) prefix.

(** Is [p] the directory [d] or a path below it? *)
Definition below (d p : string) : bool :=
  String.eqb p d || Str.startswith (d +:+ String os_path.sep "") p.

(** [TemporaryDirectory.cleanup()]: the directory and its content go. *)
Definition cleanup (d : string) : M World unit :=
  modify (fun w =>
    set_fs (filter (fun kv : string * node => below d (fst kv) = false) (fs w)) w).

Definition unique_name : M World string :=
  (* Use the tempfile module to generate a unique file name. *)
  tmpfile <- NamedTemporaryFile "gmt-python-" os_path.curdir ;;
  let name := os_path.split_tail tmpfile in
  tmpfile_close tmpfile ;;
  ret name.

(** *** [subprocess] and [webbrowser] *)

(** [subprocess.run(argv, stdout=..., stderr=...)]: the child is started,
    [run] waits for it to exit and returns the completed process, of which
    the exit status is all the model keeps.  [check] is left at its
    default, so that no status raises. *)
Definition subprocess_run (argv : list string) (stdout stderr : stream)
  : M World Z :=
  fun w =>
    match exec env argv with
    | None => (Raise FileNotFoundError, w)
    | Some returncode =>
        (Return returncode,
         set_procs (procs w ++ [Popen argv stdout stderr; Wait argv]) w)
    end.

Definition webbrowser_open_new_tab (url : string) : M World unit :=
  modify (fun w => set_procs (procs w ++ [BrowserTab url]) w).

Definition launch_external_viewer (fname : string) : M World unit :=
  (* Redirect stdout and stderr to devnull *)
  let run_args := (DEVNULL, DEVNULL) in
  if Str.startswith "linux" (platform env) then
    subprocess_run ["xdg-open"; fname] (fst run_args) (snd run_args) ;; ret tt
  else if String.eqb (platform env) "darwin" then
    subprocess_run ["open"; fname] (fst run_args) (snd run_args) ;; ret tt
  else
    webbrowser_open_new_tab ("file://" +:+ fname).

(** [with open(fname, 'rb') as image: image.read()]. *)
Definition read_bytes (fname : string) : M World (list byte) :=
  fun w =>
    match fs w !! fname with
    | Some (File data) => (Return data, w)
    | Some Dir => (Raise IsADirectoryError, w)
    | None => (Raise FileNotFoundError, w)
    end.

End Functions.

(** ** The class [Figure] *)

Module Figure.

(** The attributes of an object; an attribute is absent until [__init__]
    assigns it.  [_preview_dir] holds the [name] of the temporary
    directory. *)
Record t : Type := mk {
  _name : option string;
  _preview_dir : option string
}.

(** A method runs on the object and the world. *)
Definition Meth (A : Type) : Type := M (t * World) A.

Definition liftW {A} (m : M World A) : Meth A :=
  fun s =>
    match m (snd s) with
    | (r, w') => (r, (fst s, w'))
    end.

(** Reading [self.<attr>]. *)
Definition getattr (attr : string) (field : t -> option string) : Meth string :=
  fun s =>
    match field (fst s) with
    | Some v => (Return v, s)
    | None => (Raise (AttributeError attr), s)
    end.

(** Assigning [self.<attr>]. *)
Definition setattr (upd : t -> t) : Meth unit :=
  modify (fun s => (upd (fst s), snd s)).

(** [hasattr(self, attr)]. *)
Definition hasattr (field : t -> option string) : Meth bool :=
  gets (fun s => match field (fst s) with Some _ => true | None => false end).

(** [f(k1=v1, ..., **kwargs)]: a keyword given twice is a [TypeError]
    raised by the call itself, before the callee runs. *)
Definition keywords {S} (explicit kwargs : dict pyval) : M S (dict pyval) :=
  if Dict.clash kwargs explicit then raise TypeError
  else ret (explicit ++ kwargs).

(** The aliases given to [use_alias] above [psconvert]. *)
Definition psconvert_aliases : dict string :=
  [("F", "prefix"); ("T", "fmt"); ("A", "crop"); ("E", "dpi"); ("P", "portrait")].

(** All supported formats: [fmts] of [savefig]. *)
Definition fmts : dict string :=
  [("png", "g"); ("pdf", "f"); ("jpg", "j"); ("bmp", "b"); ("eps", "e"); ("tif", "t")].

Section Methods.
Variable env : Env.

Definition __init__ : Meth unit :=
  name <- liftW (unique_name env) ;;
  setattr (fun o => mk (Some name) (_preview_dir o)) ;;
  name <- getattr "_name" _name ;;
  dir <- liftW (TemporaryDirectory env (name +:+ "-preview-")) ;;
  setattr (fun o => mk (_name o) (Some dir)).

Definition __del__ : Meth unit :=
  (* Clean up the temporary directory that stores the previews *)
  has <- hasattr _preview_dir ;;
  if has : bool then
    dir <- getattr "_preview_dir" _preview_dir ;;
    liftW (cleanup dir)
  else ret tt.

(** [Figure()]: a new object, initialised.  An object whose
    initialisation raises is dropped at once; it has no directory yet. *)
Definition new : M World t :=
  fun w =>
    match __init__ (mk None None, w) with
    | (Return _, (self, w')) => (Return self, w')
    | (Raise e, (_, w')) => (Raise e, w')
    end.

Definition _preprocess (kwargs : dict pyval) : Meth (dict pyval) :=
  name <- getattr "_name" _name ;;
  liftW (figure env name) ;;
  ret kwargs.

(** The body of [psconvert], which receives the keywords the decorators
    hand over. *)
Definition psconvert_body (kwargs : dict pyval) : Meth unit :=
  kwargs <- _preprocess kwargs ;;
  (* Default cropping the figure to True *)
  let kwargs :=
    if negb (Dict.mem "A" kwargs) then Dict.set "A" (VStr "") kwargs
    else kwargs in
  (* Default portrait mode to True *)
  let kwargs :=
    if negb (Dict.mem "P" kwargs) then Dict.set "P" (VStr "") kwargs
    else kwargs in
  liftW (call_module env "psconvert" (build_arg_string env kwargs)).

(** [psconvert] as callers see it: [use_alias(...)] outermost, then
    [kwargs_to_strings()], then the body ([fmt_docstring] edits the
    docstring only). *)
Definition psconvert (kwargs : dict pyval) : Meth unit :=
  psconvert_body (kwargs_to_strings env (use_alias env psconvert_aliases kwargs)).

(** [kwargs] are the keywords of the call other than the four parameters
    [fname], [orientation], [transparent] and [crop]. *)
Definition savefig (fname orientation : string) (transparent crop : bool)
    (kwargs : dict pyval) : Meth unit :=
  assert (existsb (String.eqb orientation) ["portrait"; "landscape"])
         ("Invalid orientation '" +:+ orientation +:+ "'.") ;;
  let portrait := String.eqb orientation "portrait" in
  let prefix := fst (os_path.splitext fname) in
  let ext := snd (os_path.splitext fname) in
  let ext := Str.drop 1 ext in  (* Remove the . *)
  assert (Dict.mem ext fmts) ("Unknown extension '." +:+ ext +:+ "'") ;;
  fmt <- match Dict.get ext fmts with
         | Some fmt => ret fmt
         | None => raise (KeyError ext)
         end ;;
  fmt <- (if transparent then
            assert (String.eqb ext "png")
                   ("Transparency unavailable for '" +:+ ext +:+ "', only for png.") ;;
            ret (Str.upper fmt)
          else ret fmt) ;;
  kwargs <- keywords [("prefix", VStr prefix); ("fmt", VStr fmt);
                      ("crop", VBool crop); ("portrait", VBool portrait)]
                     kwargs ;;
  psconvert kwargs.

Definition _preview (fmt : string) (dpi : pyval) (anti_alias as_bytes : bool)
  : Meth pyval :=
  let savefig_args := [("dpi", dpi)] in
  let savefig_args :=
    if anti_alias
    then Dict.set "Qt" (VInt 4) (Dict.set "Qg" (VInt 4) savefig_args)
    else savefig_args in
  dir <- getattr "_preview_dir" _preview_dir ;;
  name <- getattr "_name" _name ;;
  let fname := os_path.join dir (name +:+ "." +:+ fmt) in
  savefig fname "portrait" false true savefig_args ;;
  if as_bytes then
    preview <- liftW (read_bytes fname) ;;
    ret (VBytes preview)
  else ret (VStr fname).

(** [Image(data=png, width=width)]; [Image] is [None] without IPython. *)
Definition Image (data width : pyval) : Meth pyval :=
  if IPython env then ret (VImage data width) else raise TypeError.

Definition show (dpi width : pyval) (external : bool) : Meth pyval :=
  if external then
    pdf <- _preview "pdf" (VInt 600) false false ;;
    match pdf with
    | VStr pdf => liftW (launch_external_viewer env pdf)
    | _ => raise TypeError
    end ;;
    ret VNone
  else
    png <- _preview "png" dpi true true ;;
    img <- Image png width ;;
    ret img.

Definition _repr_png_ : Meth pyval :=
  png <- _preview "png" (VInt 70) true true ;;
  ret png.

Definition _repr_html_ : Meth pyval :=
  raw_png <- _preview "png" (VInt 300) true true ;;
  match raw_png with
  | VBytes raw_png =>
      let base64_png := b64encode env raw_png in
      ret (VStr ("<img src=" +:+ Str.dquote +:+ "data:image/png;base64,"
                 +:+ base64_png +:+ Str.dquote +:+ " width=" +:+ Str.dquote
                 +:+ "500px" +:+ Str.dquote +:+ ">"))
  | _ => raise TypeError
  end.

End Methods.
End Figure.

(** ** A concrete environment

    One instance of [Env], on which the definitions above evaluate: an
    engine that accepts every call and leaves the files alone, decorators
    that rename the aliases and keep the values, an argument string that
    lists the flags, and a system where every program starts and exits
    with status 0. *)

Module Sample.

(** The key of the alias [k], when [k] is one. *)
Fixpoint flag_of (aliases : dict string) (k : string) : string :=
  match aliases with
  | [] => k
  | (flag, alias) :: rest => if String.eqb alias k then flag else flag_of rest k
  end.

Definition rename (aliases : dict string) (kwargs : dict pyval) : dict pyval :=
  map (fun kv => (flag_of aliases (fst kv), snd kv)) kwargs.

Definition flags (kwargs : dict pyval) : string :=
  fold_right (fun kv acc => "-" +:+ fst kv +:+ " " +:+ acc) "" kwargs.

Definition make (platform : string) (rand : nat -> nat) : Env :=
  {| engine := fun _ files => Some files;
     use_alias := rename;
     kwargs_to_strings := fun kwargs => kwargs;
     build_arg_string := flags;
     platform := platform;
     exec := fun _ => Some 0%Z;
     rand := rand;
     TMP_MAX := 100;
     tempdir := "/tmp";
     IPython := true;
     b64encode := fun _ => "" |}.

(** Linux, with a generator that draws the same number every time. *)
Definition linux : Env := make "linux" (fun _ => 0).

(** Linux, with a generator whose draws differ from the 25th on. *)
Definition linux_repeating : Env := make "linux" (fun i => if Nat.ltb i 24 then 0 else 1).

(** Linux with an engine that fails from its second call on. *)
Definition linux_failing : Env :=
  {| engine := fun log files =>
       match log with
       | [_] => Some files
       | _ => None
       end;
     use_alias := rename;
     kwargs_to_strings := fun kwargs => kwargs;
     build_arg_string := flags;
     platform := "linux";
     exec := fun _ => Some 1%Z;
     rand := fun _ => 0;
     TMP_MAX := 100;
     tempdir := "/tmp";
     IPython := true;
     b64encode := fun _ => "" |}.

(** Linux with an engine that, at every conversion, writes the PNG preview
    of the figure [fig] below: one byte for each call made so far. *)
Definition preview_png : string :=
  "/tmp/gmt-python-aaaaaaaa-preview-aaaaaaaa/gmt-python-aaaaaaaa.png".

Definition linux_rendering : Env :=
  {| engine := fun log files =>
       match last log with
       | Some c =>
           if String.eqb (fst c) "psconvert"
           then Some (<[preview_png := File (map (fun _ => x2a) log)]> files)
           else Some files
       | None => Some files
       end;
     use_alias := rename;
     kwargs_to_strings := fun kwargs => kwargs;
     build_arg_string := flags;
     platform := "linux";
     exec := fun _ => Some 0%Z;
     rand := fun _ => 0;
     TMP_MAX := 100;
     tempdir := "/tmp";
     IPython := true;
     b64encode := fun _ => "" |}.

(** The same without IPython. *)
Definition headless : Env :=
  {| engine := engine linux_rendering;
     use_alias := rename;
     kwargs_to_strings := fun kwargs => kwargs;
     build_arg_string := flags;
     platform := "linux";
     exec := fun _ => Some 0%Z;
     rand := fun _ => 0;
     TMP_MAX := 100;
     tempdir := "/tmp";
     IPython := false;
     b64encode := fun _ => "" |}.




(** A platform that is neither Linux nor macOS. *)
Definition windows : Env := make "win32" (fun _ => 0).

(** Linux, with a generator that draws 0 eight times, then 1, then 2. *)
Definition linux_counting : Env := make "linux" (fun i => i / 8).

(** The world before anything happened. *)
Definition w0 : World := mkWorld [] [] ∅ 0.

(** A world where the figure [fig] below has a preview, beside a file of
    the user. *)
Definition w_preview : World :=
  mkWorld [] []
    (<["/tmp/gmt-python-aaaaaaaa-preview-aaaaaaaa" := Dir]>
       (<[preview_png := File [x2a]]>
          (<["/tmp/gmt-python-aaaaaaaa-preview-aaaaaaaa.txt" := File [x2a]]> ∅)))
    16.

(** A figure as [Figure()] makes it. *)
Definition fig : Figure.t :=
  Figure.mk (Some "gmt-python-aaaaaaaa")
            (Some "/tmp/gmt-python-aaaaaaaa-preview-aaaaaaaa").

End Sample.

(** ** Vocabulary of the statements *)

(** The extension [savefig] sees in a file name. *)
Definition extension (fname : string) : string :=
  Str.drop 1 (snd (os_path.splitext fname)).

(** The extensions [savefig] supports, as its docstring lists them. *)
Definition supported : list string := ["png"; "pdf"; "jpg"; "bmp"; "eps"; "tif"].

(** The two orientations. *)
Definition orientations : list string := ["portrait"; "landscape"].

(** The native calls made by a run that started in [w] and ended in [w']:
    the calls of [w'] after those of [w]. *)
Definition calls_since (w w' : World) (new_calls : list native_call) : Prop :=
  calls w' = calls w ++ new_calls.

(** The keywords [savefig] itself gives to [psconvert]. *)
Definition savefig_owned : list string := ["prefix"; "fmt"; "crop"; "portrait"].

(** [savefig] hands the additional keywords [kwargs] on as they are: its
    run is the call of the wrapper with its own four keywords followed by
    [kwargs]. *)
Definition forwards (env : Env) (fname orientation : string)
    (transparent crop : bool) (kwargs : dict pyval) (s : Figure.t * World) : Prop :=
  exists fmt,
    Figure.savefig env fname orientation transparent crop kwargs s =
    Figure.psconvert env
      ([("prefix", VStr (fst (os_path.splitext fname))); ("fmt", VStr fmt);
        ("crop", VBool crop);
        ("portrait", VBool (String.eqb orientation "portrait"))] ++ kwargs) s.

(** The calls a run of [psconvert] adds to the log: the selection of the
    figure by its name, with the format '-', comes first; the conversion,
    if the run gets that far, follows it and ends the list. *)
Definition select_then_convert (name : string) (new_calls : list native_call) : Prop :=
  exists rest,
    new_calls = ("figure", name +:+ " -") :: rest
    /\ (rest = [] \/ exists args, rest = [("psconvert", args)]).

(** The program [launch_external_viewer] starts on a platform, if any. *)
Definition viewer_command (platform : string) : option string :=
  if Str.startswith "linux" platform then Some "xdg-open"
  else if String.eqb platform "darwin" then Some "open"
  else None.

(** A child process that is started with its output discarded and left
    alone: nobody waits for it. *)
Definition fire_and_forget (argv : list string) (events : list os_event) : Prop :=
  In (Popen argv DEVNULL DEVNULL) events /\ ~ In (Wait argv) events.

(** A method that leaves the attributes of its object as they are,
    whether it returns or raises. *)
Definition keeps_self {A : Type} (m : Figure.Meth A) : Prop :=
  forall s, fst (snd (m s)) = fst s.

(** A name without a slash that does not begin with a dot, as the names
    of [unique_name] are. *)
Definition plain_name (n : string) : Prop :=
  Str.mem os_path.sep n = false
  /\ exists c n', n = String c n' /\ c <> os_path.extsep.

(** The keywords [_preview] gives to [savefig]. *)
Definition preview_args (dpi : pyval) (anti_alias : bool) : dict pyval :=
  if anti_alias then [("dpi", dpi); ("Qg", VInt 4); ("Qt", VInt 4)]
  else [("dpi", dpi)].

(** A method that asks nothing of the operating system and draws no
    temporary name. *)
Definition quiet {A : Type} (m : Figure.Meth A) : Prop :=
  forall s, procs (snd (snd (m s))) = procs (snd s)
            /\ rng (snd (snd (m s))) = rng (snd s).

(** A method that makes no native call. *)
Definition same_calls {A : Type} (m : Figure.Meth A) : Prop :=
  forall s, calls (snd (snd (m s))) = calls (snd s).




(** * Properties *)

(** ** Strings and paths *)

(* Concatenation unfolds on a string whose head is known. *)
#[local] Arguments String.append !_ _ / : simpl nomatch.

Section StrFacts.

Lemma append_empty_r (s : string) : s +:+ "" = s.
Proof. induction s as [|a s IH]; simpl; [reflexivity | now rewrite IH]. Qed.

Lemma append_assoc (s1 s2 s3 : string) : (s1 +:+ s2) +:+ s3 = s1 +:+ (s2 +:+ s3).
Proof. induction s1 as [|a s1 IH]; simpl; [reflexivity | now rewrite IH]. Qed.

Lemma length_append (s1 s2 : string) :
  String.length (s1 +:+ s2) = String.length s1 + String.length s2.
Proof. induction s1 as [|a s1 IH]; simpl; [reflexivity | now rewrite IH]. Qed.

Lemma take_drop (n : nat) (s : string) : Str.take n s +:+ Str.drop n s = s.
Proof.
  revert s; induction n as [|n IH]; intros [|a s]; simpl; try reflexivity.
  now rewrite IH.
Qed.

Lemma take_app (s1 s2 : string) : Str.take (String.length s1) (s1 +:+ s2) = s1.
Proof.
  induction s1 as [|a s1 IH]; simpl.
  - now destruct s2.
  - now rewrite IH.
Qed.

Lemma drop_app (s1 s2 : string) : Str.drop (String.length s1) (s1 +:+ s2) = s2.
Proof. induction s1 as [|a s1 IH]; simpl; [reflexivity | exact IH]. Qed.

Lemma substring_app_head (s1 : string) (c : ascii) (s2 : string) :
  substring (String.length s1) 1 (s1 +:+ String c s2) = String c "".
Proof.
  induction s1 as [|a s1 IH]; simpl; [|exact IH].
  now destruct s2.
Qed.

Lemma mem_append (c : ascii) (s1 s2 : string) :
  Str.mem c (s1 +:+ s2) = Str.mem c s1 || Str.mem c s2.
Proof.
  induction s1 as [|a s1 IH]; simpl; [reflexivity|].
  now rewrite IH, orb_assoc.
Qed.

Lemma rfind_lower (c : ascii) (s : string) : (-1 <= Str.rfind c s)%Z.
Proof.
  induction s as [|a s IH]; simpl; [lia|].
  destruct (0 <=? Str.rfind c s)%Z eqn:E; [apply Z.leb_le in E; lia|].
  destruct (Ascii.eqb a c); lia.
Qed.

Lemma rfind_absent (c : ascii) (s : string) :
  Str.mem c s = false -> Str.rfind c s = (-1)%Z.
Proof.
  induction s as [|a s IH]; simpl; [reflexivity|].
  intros H; apply orb_false_iff in H as [Ha Hs].
  rewrite (IH Hs), Ha. reflexivity.
Qed.

Lemma rfind_app_absent (c : ascii) (s1 s2 : string) :
  Str.mem c s2 = false -> Str.rfind c (s1 +:+ s2) = Str.rfind c s1.
Proof.
  intros H; induction s1 as [|a s1 IH]; simpl.
  - now apply rfind_absent.
  - now rewrite IH.
Qed.

Lemma rfind_app_hit (c : ascii) (s1 s2 : string) :
  Str.mem c s2 = false ->
  Str.rfind c (s1 +:+ String c s2) = Z.of_nat (String.length s1).
Proof.
  intros H; induction s1 as [|a s1 IH]; simpl.
  - now rewrite (rfind_absent _ _ H), Ascii.eqb_refl.
  - rewrite IH.
    destruct (0 <=? Z.of_nat (String.length s1))%Z eqn:E; [lia|].
    apply Z.leb_gt in E; lia.
Qed.

(** At the index [rfind] returns stands the character searched. *)
Lemma rfind_drop (c : ascii) (s : string) :
  (0 <= Str.rfind c s)%Z ->
  exists rest, Str.drop (Z.to_nat (Str.rfind c s)) s = String c rest.
Proof.
  induction s as [|a s IH]; simpl; [lia|].
  destruct (0 <=? Str.rfind c s)%Z eqn:E.
  - apply Z.leb_le in E. intros _.
    destruct (IH E) as [rest Hrest]. exists rest.
    replace (Z.to_nat (Str.rfind c s + 1)) with (S (Z.to_nat (Str.rfind c s))) by lia.
    exact Hrest.
  - destruct (Ascii.eqb_spec a c) as [->|]; [|lia].
    intros _. now exists s.
Qed.

Lemma endswith_split (c : ascii) (s : string) :
  Str.endswith c s = true -> exists s0, s = s0 +:+ String c "".
Proof.
  induction s as [|a s IH]; simpl; [discriminate|].
  destruct s as [|b s].
  - intros H; apply Ascii.eqb_eq in H; subst. now exists "".
  - intros H; destruct (IH H) as [s0 Hs0]. exists (String a s0).
    simpl. now rewrite <- Hs0.
Qed.

(** [splitext] cuts the path in two. *)
Lemma splitext_append (p : string) :
  fst (os_path.splitext p) +:+ snd (os_path.splitext p) = p.
Proof.
  unfold os_path.splitext.
  destruct (_ <? _)%Z; [|apply append_empty_r].
  destruct (os_path.splitext_loop _ _ _); [|apply append_empty_r].
  apply take_drop.
Qed.

(** The second part is empty or starts at a dot. *)
Lemma splitext_ext (p : string) :
  snd (os_path.splitext p) = "" \/
  snd (os_path.splitext p) = "." +:+ Str.drop 1 (snd (os_path.splitext p)).
Proof.
  unfold os_path.splitext.
  destruct (_ <? _)%Z eqn:E; [|now left].
  destruct (os_path.splitext_loop _ _ _); [|now left].
  right; simpl.
  apply Z.ltb_lt in E.
  pose proof (rfind_lower os_path.sep p).
  destruct (rfind_drop os_path.extsep p) as [rest ->]; [lia|].
  reflexivity.
Qed.

End StrFacts.

(** ** The monad *)

Section MonadFacts.
Context {S A B : Type}.

Lemma bind_return (m : M S A) (k : A -> M S B) s a s' :
  m s = (Return a, s') -> bind m k s = k a s'.
Proof. unfold bind; now intros ->. Qed.

Lemma bind_raise (m : M S A) (k : A -> M S B) s e s' :
  m s = (Raise e, s') -> bind m k s = (Raise e, s').
Proof. unfold bind; now intros ->. Qed.

End MonadFacts.

(** ** [savefig]: the checks and the call of the wrapper *)

Section Savefig.
Variable env : Env.

Lemma fmts_supported (ext : string) :
  Dict.mem ext Figure.fmts = true <-> In ext supported.
Proof.
  unfold Dict.mem, Figure.fmts, supported; cbn [Dict.get In].
  repeat match goal with
         | |- context [String.eqb ?a ext] =>
             destruct (String.eqb_spec a ext); [tauto|]
         end.
  split; [discriminate|]. tauto.
Qed.

Lemma orientation_valid (orientation : string) :
  existsb (String.eqb orientation) orientations = true <->
  (orientation = "portrait" \/ orientation = "landscape").
Proof.
  unfold orientations; cbn [existsb]. rewrite orb_false_r, orb_true_iff.
  now rewrite !String.eqb_eq.
Qed.

Lemma savefig_bad_orientation fname orientation transparent crop kwargs s :
  existsb (String.eqb orientation) orientations = false ->
  Figure.savefig env fname orientation transparent crop kwargs s =
  (Raise (AssertionError ("Invalid orientation '" +:+ orientation +:+ "'.")), s).
Proof.
  intros H. unfold Figure.savefig, orientations in *.
  unfold bind at 1. unfold assert. rewrite H. reflexivity.
Qed.

Lemma savefig_bad_extension fname orientation transparent crop kwargs s :
  existsb (String.eqb orientation) orientations = true ->
  Dict.mem (extension fname) Figure.fmts = false ->
  Figure.savefig env fname orientation transparent crop kwargs s =
  (Raise (AssertionError ("Unknown extension '." +:+ extension fname +:+ "'")), s).
Proof.
  intros Ho He. unfold Figure.savefig, orientations, extension in *.
  unfold bind at 1. unfold assert at 1. rewrite Ho. unfold ret at 1.
  unfold bind at 1. unfold assert at 1. rewrite He. reflexivity.
Qed.

Lemma savefig_checked fname orientation transparent crop kwargs s code :
  existsb (String.eqb orientation) orientations = true ->
  Dict.get (extension fname) Figure.fmts = Some code ->
  Figure.savefig env fname orientation transparent crop kwargs s =
  (fmt <- (if transparent then
             assert (String.eqb (extension fname) "png")
               ("Transparency unavailable for '" +:+ extension fname
                +:+ "', only for png.") ;;
             ret (Str.upper code)
           else ret code) ;;
   kwargs <- Figure.keywords
               [("prefix", VStr (fst (os_path.splitext fname))); ("fmt", VStr fmt);
                ("crop", VBool crop);
                ("portrait", VBool (String.eqb orientation "portrait"))]
               kwargs ;;
   Figure.psconvert env kwargs) s.
Proof.
  intros Ho He. unfold Figure.savefig, orientations, extension in *.
  unfold bind at 1. unfold assert at 1. rewrite Ho. unfold ret at 1.
  unfold bind at 1. unfold assert at 1. unfold Dict.mem. rewrite He.
  unfold ret at 1. unfold bind at 1. unfold ret at 1. reflexivity.
Qed.

Lemma mem_keys {V} (k : string) (d : dict V) :
  Dict.mem k d = true <-> In k (Dict.keys d).
Proof.
  unfold Dict.mem, Dict.keys.
  induction d as [|[k' v] d IH]; cbn [Dict.get map In fst].
  - split; [discriminate | tauto].
  - destruct (String.eqb_spec k' k); [tauto|].
    rewrite IH. tauto.
Qed.

Lemma clash_owned (kwargs explicit : dict pyval) :
  (forall k, In k (Dict.keys explicit) -> Dict.mem k kwargs = false) ->
  Dict.clash kwargs explicit = false.
Proof.
  intros H. unfold Dict.clash.
  apply not_true_is_false; intros Hex.
  apply existsb_exists in Hex as (k & Hk & Hm).
  apply mem_keys in Hm. apply mem_keys in Hk.
  rewrite (H k Hm) in Hk. discriminate.
Qed.

Lemma clash_shared (kwargs explicit : dict pyval) (k : string) :
  In k (Dict.keys explicit) -> Dict.mem k kwargs = true ->
  Dict.clash kwargs explicit = true.
Proof.
  intros Hk Hm. unfold Dict.clash.
  apply existsb_exists. exists k. split.
  - now apply mem_keys.
  - now apply mem_keys.
Qed.

Lemma savefig_transparent_not_png fname orientation crop kwargs s code :
  existsb (String.eqb orientation) orientations = true ->
  Dict.get (extension fname) Figure.fmts = Some code ->
  extension fname <> "png" ->
  Figure.savefig env fname orientation true crop kwargs s =
  (Raise (AssertionError ("Transparency unavailable for '" +:+ extension fname
                          +:+ "', only for png.")), s).
Proof.
  intros Ho He Hpng. rewrite (savefig_checked _ _ _ _ _ _ code Ho He).
  unfold bind at 1. unfold bind at 1. unfold assert.
  destruct (String.eqb_spec (extension fname) "png"); [contradiction|].
  reflexivity.
Qed.

Lemma savefig_clash fname orientation transparent crop kwargs s code :
  existsb (String.eqb orientation) orientations = true ->
  Dict.get (extension fname) Figure.fmts = Some code ->
  (transparent = true -> extension fname = "png") ->
  (exists k, In k savefig_owned /\ Dict.mem k kwargs = true) ->
  Figure.savefig env fname orientation transparent crop kwargs s = (Raise TypeError, s).
Proof.
  intros Ho He Ht Hc. rewrite (savefig_checked _ _ _ _ _ _ code Ho He).
  assert (Hfmt : exists fmt,
    (if transparent
     then assert (String.eqb (extension fname) "png")
            ("Transparency unavailable for '" +:+ extension fname
             +:+ "', only for png.") ;; ret (Str.upper code)
     else ret code) s = (Return fmt, s)).
  { destruct transparent; [|now exists code].
    rewrite (Ht eq_refl). now exists (Str.upper code). }
  destruct Hfmt as [fmt Hfmt].
  rewrite (bind_return _ _ _ _ _ Hfmt).
  destruct Hc as (k & Hk & Hm).
  unfold bind, Figure.keywords.
  rewrite (clash_shared _ _ k); [reflexivity | exact Hk | exact Hm].
Qed.

Lemma savefig_call fname orientation transparent crop kwargs s code :
  existsb (String.eqb orientation) orientations = true ->
  Dict.get (extension fname) Figure.fmts = Some code ->
  (transparent = true -> extension fname = "png") ->
  (forall k, In k savefig_owned -> Dict.mem k kwargs = false) ->
  Figure.savefig env fname orientation transparent crop kwargs s =
  Figure.psconvert env
    ([("prefix", VStr (fst (os_path.splitext fname)));
      ("fmt", VStr (if transparent then Str.upper code else code));
      ("crop", VBool crop);
      ("portrait", VBool (String.eqb orientation "portrait"))] ++ kwargs) s.
Proof.
  intros Ho He Ht Hc. rewrite (savefig_checked _ _ _ _ _ _ code Ho He).
  assert (Hfmt :
    (if transparent
     then assert (String.eqb (extension fname) "png")
            ("Transparency unavailable for '" +:+ extension fname
             +:+ "', only for png.") ;; ret (Str.upper code)
     else ret code) s
    = (Return (if transparent then Str.upper code else code), s)).
  { destruct transparent; [|reflexivity]. now rewrite (Ht eq_refl). }
  rewrite (bind_return _ _ _ _ _ Hfmt).
  unfold bind at 1. unfold Figure.keywords.
  rewrite clash_owned; [reflexivity|exact Hc].
Qed.

Lemma savefig_cases fname orientation transparent crop kwargs s :
  (exists e, Figure.savefig env fname orientation transparent crop kwargs s = (Raise e, s))
  \/ (exists code,
        Dict.get (extension fname) Figure.fmts = Some code
        /\ (transparent = true -> extension fname = "png")
        /\ Figure.savefig env fname orientation transparent crop kwargs s =
           Figure.psconvert env
             ([("prefix", VStr (fst (os_path.splitext fname)));
               ("fmt", VStr (if transparent then Str.upper code else code));
               ("crop", VBool crop);
               ("portrait", VBool (String.eqb orientation "portrait"))] ++ kwargs) s).
Proof.
  destruct (existsb (String.eqb orientation) orientations) eqn:Ho.
  2:{ left. eexists. now apply savefig_bad_orientation. }
  destruct (Dict.get (extension fname) Figure.fmts) as [code|] eqn:Hg.
  2:{ left. eexists. apply savefig_bad_extension; [exact Ho|].
      unfold Dict.mem. now rewrite Hg. }
  assert (Ht : (transparent = true -> extension fname = "png")
               \/ (transparent = true /\ extension fname <> "png")).
  { destruct transparent; [|left; discriminate].
    destruct (String.eqb_spec (extension fname) "png"); [left|right]; tauto. }
  destruct Ht as [Ht | [-> Ht]].
  2:{ left. eexists. now apply savefig_transparent_not_png with (code := code). }
  destruct (existsb (fun k => Dict.mem k kwargs) savefig_owned) eqn:Hc.
  - left. exists TypeError. apply savefig_clash with (code := code); try assumption.
    apply existsb_exists in Hc as (k & Hk & Hm). now exists k.
  - right. exists code. split; [reflexivity|]. split; [exact Ht|].
    apply savefig_call; try assumption.
    intros k Hk. apply not_true_is_false; intros Hm.
    assert (existsb (fun k => Dict.mem k kwargs) savefig_owned = true)
      by (apply existsb_exists; now exists k).
    congruence.
Qed.

End Savefig.

(** ** [psconvert]: the calls of the engine *)

Section Psconvert.
Variable env : Env.

Lemma psconvert_body_run (kwargs : dict pyval) (self : Figure.t) (w : World) (n : string) :
  Figure._name self = Some n ->
  Figure.psconvert_body env kwargs (self, w) =
  (Figure.liftW (figure env n) ;;
   Figure.liftW
     (call_module env "psconvert"
        (build_arg_string env
           (let kwargs := if negb (Dict.mem "A" kwargs)
                          then Dict.set "A" (VStr "") kwargs else kwargs in
            if negb (Dict.mem "P" kwargs)
            then Dict.set "P" (VStr "") kwargs else kwargs)))) (self, w).
Proof.
  intros Hn. unfold Figure.psconvert_body, Figure._preprocess.
  unfold bind, Figure.getattr, ret. cbn [fst snd]. rewrite Hn.
  destruct (Figure.liftW (figure env n) (self, w)) as [[[]|e] s']; reflexivity.
Qed.

Lemma select_convert_calls (n args : string) (self : Figure.t) (w : World) :
  let run := (Figure.liftW (figure env n) ;;
              Figure.liftW (call_module env "psconvert" args)) (self, w) in
  fst (snd run) = self
  /\ exists new_calls,
       calls_since w (snd (snd run)) new_calls /\ select_then_convert n new_calls.
Proof.
  unfold bind, Figure.liftW, figure, call_module, calls_since,
    select_then_convert. cbn [fst snd].
  change (n +:+ " " +:+ "-") with (n +:+ " -").
  destruct (engine env (calls w ++ [("figure", n +:+ " -")]) (fs w)) as [fs1|];
    cbn [fst snd calls set_calls set_fs].
  - match goal with
    | |- context [engine env ?log ?f] => destruct (engine env log f) as [fs2|]
    end; cbn [fst snd calls set_calls set_fs];
      (split; [reflexivity|]);
      exists [("figure", n +:+ " -"); ("psconvert", args)];
      (split; [now rewrite <- app_assoc|]);
      exists [("psconvert", args)];
      (split; [reflexivity|]); right; now exists args.
  - split; [reflexivity|].
    exists [("figure", n +:+ " -")]. split; [reflexivity|].
    eexists; split; [reflexivity|]. now left.
Qed.

Lemma psconvert_calls (kwargs : dict pyval) (self : Figure.t) (w : World) (n : string) :
  Figure._name self = Some n ->
  exists new_calls,
    calls_since w (snd (snd (Figure.psconvert env kwargs (self, w)))) new_calls
    /\ select_then_convert n new_calls.
Proof.
  intros Hn. unfold Figure.psconvert.
  rewrite (psconvert_body_run _ _ _ _ Hn).
  apply select_convert_calls.
Qed.

End Psconvert.

Section EngineFailure.
Variable env : Env.

Lemma select_convert_run (n args : string) (self : Figure.t) (w : World) :
  (Figure.liftW (figure env n) ;;
   Figure.liftW (call_module env "psconvert" args)) (self, w) =
  match engine env (calls w ++ [("figure", n +:+ " -")]) (fs w) with
  | None => (Raise GMTCLibError, (self, set_calls (calls w ++ [("figure", n +:+ " -")]) w))
  | Some fs1 =>
      match engine env ((calls w ++ [("figure", n +:+ " -")]) ++ [("psconvert", args)]) fs1 with
      | None =>
          (Raise GMTCLibError,
           (self, mkWorld ((calls w ++ [("figure", n +:+ " -")]) ++ [("psconvert", args)])
                          (procs w) fs1 (rng w)))
      | Some fs2 =>
          (Return tt,
           (self, mkWorld ((calls w ++ [("figure", n +:+ " -")]) ++ [("psconvert", args)])
                          (procs w) fs2 (rng w)))
      end
  end.
Proof.
  unfold bind, Figure.liftW, figure, call_module. cbn [fst snd].
  change (n +:+ " " +:+ "-") with (n +:+ " -").
  destruct (engine env (calls w ++ [("figure", n +:+ " -")]) (fs w)) as [fs1|];
    [|reflexivity].
  cbn [fst snd calls fs procs rng set_calls set_fs].
  now destruct (engine env _ fs1).
Qed.

End EngineFailure.

(** C2. Every run of [psconvert] on a figure named [n] first makes the
    native call that selects the figure, 'figure' with the argument
    string "n -" (the name and the format '-' that keeps the engine from
    writing a file); the native 'psconvert' call, when it is made, is the
    next and last call.  This holds for all keywords, all engines and all
    worlds, and for [savefig] too: a [savefig] that passes its checks adds
    the same calls, one that does not adds none. *)
Theorem psconvert_selects_figure_first (env : Env) (kwargs : dict pyval)
    (self : Figure.t) (w : World) (n : string) :
  Figure._name self = Some n ->
  (exists new_calls,
     calls_since w (snd (snd (Figure.psconvert env kwargs (self, w)))) new_calls
     /\ select_then_convert n new_calls)
  /\ (forall fname orientation transparent crop,
        exists new_calls,
          calls_since w
            (snd (snd (Figure.savefig env fname orientation transparent crop
                         kwargs (self, w)))) new_calls
          /\ (new_calls = [] \/ select_then_convert n new_calls)).
Proof.
  intros Hn. split; [now apply psconvert_calls|].
  intros fname orientation transparent crop.
  destruct (savefig_cases env fname orientation transparent crop kwargs (self, w))
    as [[e ->] | (code & _ & _ & ->)].
  - exists []. split; [|now left].
    unfold calls_since; cbn [snd]. now rewrite app_nil_r.
  - destruct (psconvert_calls env
                ([("prefix", VStr (fst (os_path.splitext fname)));
                  ("fmt", VStr (if transparent then Str.upper code else code));
                  ("crop", VBool crop);
                  ("portrait", VBool (String.eqb orientation "portrait"))] ++ kwargs)
                self w n Hn) as (new_calls & Hc & Hs).
    exists new_calls. split; [exact Hc | now right].
Qed.

Lemma psconvert_selects_figure_first_witness :
  (exists new_calls,
     calls_since Sample.w0
       (snd (snd (Figure.psconvert Sample.linux [("E", VInt 300)]
                    (Sample.fig, Sample.w0)))) new_calls
     /\ select_then_convert "gmt-python-aaaaaaaa" new_calls)
  /\ (forall fname orientation transparent crop,
        exists new_calls,
          calls_since Sample.w0
            (snd (snd (Figure.savefig Sample.linux fname orientation transparent
                         crop [("E", VInt 300)] (Sample.fig, Sample.w0)))) new_calls
          /\ (new_calls = [] \/ select_then_convert "gmt-python-aaaaaaaa" new_calls)).
Proof.
  apply (psconvert_selects_figure_first Sample.linux [("E", VInt 300)]
           Sample.fig Sample.w0 "gmt-python-aaaaaaaa").
  reflexivity.
Defined.

(** C1. Whenever the extension of the file name is not one of png, pdf,
    jpg, bmp, eps, tif, or the orientation is neither 'portrait' nor
    'landscape', or transparency is asked for an extension other than png,
    [savefig] raises an [AssertionError] and leaves the figure and the
    world as they were: the log of native calls has no new entry, neither
    a 'figure' call nor a 'psconvert' call. *)
Theorem savefig_invalid_argument (env : Env) (fname orientation : string)
    (transparent crop : bool) (kwargs : dict pyval) (self : Figure.t) (w : World) :
  ~ In (extension fname) supported
  \/ ~ In orientation orientations
  \/ (transparent = true /\ extension fname <> "png") ->
  let run := Figure.savefig env fname orientation transparent crop kwargs (self, w) in
  (exists msg, fst run = Raise (AssertionError msg))
  /\ snd run = (self, w)
  /\ calls_since w (snd (snd run)) [].
Proof.
  intros H run.
  assert (Hrun : exists msg, run = (Raise (AssertionError msg), (self, w))).
  { subst run.
    destruct (existsb (String.eqb orientation) orientations) eqn:Ho.
    2:{ eexists. now apply savefig_bad_orientation. }
    destruct (Dict.mem (extension fname) Figure.fmts) eqn:He.
    2:{ eexists. now apply savefig_bad_extension. }
    destruct H as [H | [H | [-> H]]].
    - apply fmts_supported in He. contradiction.
    - apply orientation_valid in Ho. unfold orientations in H.
      cbn [In] in H. destruct Ho; subst; tauto.
    - unfold Dict.mem in He.
      destruct (Dict.get (extension fname) Figure.fmts) as [code|] eqn:Hg;
        [|discriminate].
      eexists. now apply savefig_transparent_not_png with (code := code). }
  destruct Hrun as [msg ->]. cbn [fst snd].
  split; [now exists msg|]. split; [reflexivity|].
  unfold calls_since. now rewrite app_nil_r.
Qed.

Lemma savefig_invalid_argument_witness :
  let run := Figure.savefig Sample.linux "out.gif" "portrait" false true []
               (Sample.fig, Sample.w0) in
  (exists msg, fst run = Raise (AssertionError msg))
  /\ snd run = (Sample.fig, Sample.w0)
  /\ calls_since Sample.w0 (snd (snd run)) [].
Proof.
  apply savefig_invalid_argument.
  left. unfold supported. vm_compute. intuition discriminate.
Defined.

(** ** The table of formats and the keywords of [savefig] *)

Section SavefigKeywords.
Variable env : Env.

Lemma fmts_table (ext code : string) :
  Dict.get ext Figure.fmts = Some code <->
  In (ext, code)
     [("png", "g"); ("pdf", "f"); ("jpg", "j"); ("bmp", "b"); ("eps", "e"); ("tif", "t")].
Proof.
  unfold Figure.fmts; cbn [Dict.get In].
  repeat match goal with
         | |- context [String.eqb ?a ext] =>
             destruct (String.eqb_spec a ext);
             [subst; split;
              [intros [= <-]; tauto
              |intros H; repeat destruct H as [H|H]; try discriminate H;
               try contradiction; now injection H as <-]|]
         end.
  split; [discriminate|].
  intros H; repeat destruct H as [H|H]; try contradiction;
    injection H as <- <-; contradiction.
Qed.

Lemma savefig_fname_parts (fname code : string) :
  Dict.get (extension fname) Figure.fmts = Some code ->
  fname = fst (os_path.splitext fname) +:+ "." +:+ extension fname.
Proof.
  intros Hg. unfold extension in *.
  destruct (splitext_ext fname) as [He | He].
  - rewrite He in Hg. discriminate Hg.
  - rewrite <- He. symmetry. apply splitext_append.
Qed.

End SavefigKeywords.

(** C4. With [transparent=True] and a file name whose extension is png,
    the format code [savefig] gives to the convert wrapper is 'G': a call
    with a valid orientation and no keyword of its own among the
    additional ones is the call of [psconvert] with [fmt='G'], and any
    other call with that extension raises with the figure and the world
    untouched, so that the wrapper receives nothing else.  With
    [transparent=True] and one of the other supported extensions,
    [savefig] raises an [AssertionError] and the figure and the world are
    as before: no native call was made. *)
Theorem savefig_transparent_png (env : Env) (fname orientation : string)
    (crop : bool) (kwargs : dict pyval) (s : Figure.t * World) :
  (extension fname = "png" ->
     (In orientation orientations ->
      (forall k, In k savefig_owned -> Dict.mem k kwargs = false) ->
      Figure.savefig env fname orientation true crop kwargs s =
      Figure.psconvert env
        ([("prefix", VStr (fst (os_path.splitext fname))); ("fmt", VStr "G");
          ("crop", VBool crop);
          ("portrait", VBool (String.eqb orientation "portrait"))] ++ kwargs) s)
     /\ (Figure.savefig env fname orientation true crop kwargs s =
         Figure.psconvert env
           ([("prefix", VStr (fst (os_path.splitext fname))); ("fmt", VStr "G");
             ("crop", VBool crop);
             ("portrait", VBool (String.eqb orientation "portrait"))] ++ kwargs) s
         \/ exists e,
              Figure.savefig env fname orientation true crop kwargs s = (Raise e, s)))
  /\ (In (extension fname) supported -> extension fname <> "png" ->
      exists msg,
        Figure.savefig env fname orientation true crop kwargs s =
        (Raise (AssertionError msg), s)).
Proof.
  split.
  - intros Hpng.
    assert (Hg : Dict.get (extension fname) Figure.fmts = Some "g")
      by now rewrite Hpng.
    split.
    + intros Ho Hc.
      apply (savefig_call env fname orientation true crop kwargs s "g");
        try assumption; [|tauto].
      apply orientation_valid. unfold orientations in Ho; cbn [In] in Ho.
      destruct Ho as [<-|[<-|[]]]; tauto.
    + destruct (savefig_cases env fname orientation true crop kwargs s)
        as [[e He] | (code & Hcode & _ & Hrun)].
      * right. now exists e.
      * left. rewrite Hrun. rewrite Hg in Hcode. now injection Hcode as <-.
  - intros Hs Hpng.
    destruct (existsb (String.eqb orientation) orientations) eqn:Ho.
    2:{ eexists. now apply savefig_bad_orientation. }
    apply fmts_supported in Hs. unfold Dict.mem in Hs.
    destruct (Dict.get (extension fname) Figure.fmts) as [code|] eqn:Hg;
      [|discriminate].
    eexists. now apply savefig_transparent_not_png with (code := code).
Qed.

Lemma savefig_transparent_png_witness :
  Figure.savefig Sample.linux "out.png" "landscape" true false [("E", VInt 150)]
    (Sample.fig, Sample.w0) =
  Figure.psconvert Sample.linux
    ([("prefix", VStr "out"); ("fmt", VStr "G"); ("crop", VBool false);
      ("portrait", VBool false)] ++ [("E", VInt 150)]) (Sample.fig, Sample.w0)
  /\ exists msg,
       Figure.savefig Sample.linux "out.pdf" "landscape" true false [("E", VInt 150)]
         (Sample.fig, Sample.w0) =
       (Raise (AssertionError msg), (Sample.fig, Sample.w0)).
Proof.
  split.
  - apply (proj1 (savefig_transparent_png Sample.linux "out.png" "landscape" false
                    [("E", VInt 150)] (Sample.fig, Sample.w0))).
    + reflexivity.
    + right; left; reflexivity.
    + intros k Hk. repeat destruct Hk as [<-|Hk]; try reflexivity. destruct Hk.
  - apply (proj2 (savefig_transparent_png Sample.linux "out.pdf" "landscape" false
                    [("E", VInt 150)] (Sample.fig, Sample.w0))).
    + right; left; reflexivity.
    + discriminate.
Defined.

(** C5. The claim fails on the code at an additional keyword that
    [psconvert] accepts and [savefig] passes itself.  In
    [savefig('out.png', portrait=True)] the keyword is not handed on: the
    call of the wrapper has [portrait] twice and raises a [TypeError]; no
    conversion takes place and the figure and the world are as before. *)
Theorem savefig_duplicate_keyword :
  Figure.savefig Sample.linux "out.png" "portrait" false true
    [("portrait", VBool true)] (Sample.fig, Sample.w0)
  = (Raise TypeError, (Sample.fig, Sample.w0))
  /\ ~ forwards Sample.linux "out.png" "portrait" false true
        [("portrait", VBool true)] (Sample.fig, Sample.w0).
Proof.
  split; [vm_compute; reflexivity|].
  intros [fmt H]. vm_compute in H. discriminate H.
Qed.

(** ** The defaults of [psconvert] *)

Section Defaults.
Context {V : Type}.





End Defaults.




(** ** The external viewer *)

Section Viewer.
Variable env : Env.

Lemma launch_run (fname cmd : string) (w : World) :
  viewer_command (platform env) = Some cmd ->
  launch_external_viewer env fname w =
  (subprocess_run env [cmd; fname] DEVNULL DEVNULL ;; ret tt) w.
Proof.
  unfold viewer_command, launch_external_viewer. cbn [fst snd].
  destruct (Str.startswith "linux" (platform env)); [now intros [= <-]|].
  destruct (String.eqb (platform env) "darwin"); [now intros [= <-]|].
  discriminate.
Qed.

Lemma launch_completed (fname cmd : string) (status : Z) (w : World) :
  viewer_command (platform env) = Some cmd ->
  exec env [cmd; fname] = Some status ->
  launch_external_viewer env fname w =
  (Return tt,
   set_procs (procs w ++ [Popen [cmd; fname] DEVNULL DEVNULL; Wait [cmd; fname]]) w).
Proof.
  intros Hcmd Hexec. rewrite (launch_run _ _ _ Hcmd).
  unfold bind, subprocess_run. now rewrite Hexec.
Qed.

End Viewer.

(** C3. The claim fails on the code where it says that the child is not
    waited on.  On Linux [launch_external_viewer('fig.pdf')] starts
    'xdg-open' with its standard output and its standard error discarded
    and drops the exit status, but it does so with [subprocess.run], which
    waits for the child to exit before it returns: the child is not left
    alone. *)
Theorem launch_external_viewer_waits :
  launch_external_viewer Sample.linux "fig.pdf" Sample.w0
  = (Return tt,
     set_procs [Popen ["xdg-open"; "fig.pdf"] DEVNULL DEVNULL;
                Wait ["xdg-open"; "fig.pdf"]] Sample.w0)
  /\ ~ fire_and_forget ["xdg-open"; "fig.pdf"]
        (procs (snd (launch_external_viewer Sample.linux "fig.pdf" Sample.w0))).
Proof.
  split; [vm_compute; reflexivity|].
  intros [_ Hno]. apply Hno. vm_compute. right; left; reflexivity.
Qed.

(** ** Temporary names *)

Section TempNames.
Variable env : Env.

Lemma choose_not_sep (r : nat) : Ascii.eqb (choose r) os_path.sep = false.
Proof.
  unfold choose.
  assert (H : r mod String.length characters < String.length characters)
    by (apply Nat.mod_upper_bound; discriminate).
  revert H. generalize (r mod String.length characters) as j.
  change (String.length characters) with 37.
  intros j Hj.
  do 37 (destruct j as [|j]; [reflexivity|]). lia.
Qed.

Lemma random_name_no_sep (k i : nat) :
  Str.mem os_path.sep (random_name env k i) = false.
Proof.
  revert i; induction k as [|k IH]; intros i; cbn [random_name Str.mem].
  - reflexivity.
  - now rewrite choose_not_sep, IH.
Qed.

(** What a successful run of the loop of [tempfile] did: the path is made
    of the last candidate drawn, it was free, and it now holds the node;
    nothing else changed but the count of draws. *)
Lemma mktemp_loop_return (tries : nat) (what : node) (dir pre file : string)
    (w w' : World) :
  mktemp_loop env tries what dir pre w = (Return file, w') ->
  file = os_path.join dir (pre +:+ random_name env 8 (rng w' - 8))
  /\ fs w !! file = None
  /\ fs w' = <[file := what]> (fs w)
  /\ calls w' = calls w /\ procs w' = procs w /\ rng w <= rng w' - 8.
Proof.
  revert w; induction tries as [|tries IH]; intros w; cbn [mktemp_loop].
  - discriminate.
  - unfold bind at 1. unfold next_name at 1.
    unfold bind at 1. unfold gets at 1. cbn [fs set_rng].
    destruct (fs w !! os_path.join dir (pre +:+ random_name env 8 (rng w)))
      as [taken|] eqn:Hfree.
    + intros H. apply IH in H. cbn [fs calls procs rng set_rng] in H.
      destruct H as (Hfile & Hnone & Hfs & Hcalls & Hprocs & Hrng).
      repeat split; try assumption. lia.
    + unfold bind, modify, ret. intros [= <- <-].
      cbn [fs calls procs rng set_rng set_fs].
      replace (rng w + 8 - 8) with (rng w) by lia.
      repeat split; try assumption. lia.
Qed.

Lemma join_curdir (name : string) :
  os_path.join os_path.curdir ("gmt-python-" +:+ name) = "./gmt-python-" +:+ name.
Proof. reflexivity. Qed.

Lemma split_tail_curdir (name : string) :
  Str.mem os_path.sep name = false ->
  os_path.split_tail ("./gmt-python-" +:+ name) = "gmt-python-" +:+ name.
Proof.
  intros H. unfold os_path.split_tail.
  change ("./gmt-python-" +:+ name) with (("./gmt-python-") +:+ name) at 1.
  rewrite (rfind_app_absent os_path.sep "./gmt-python-" name H).
  reflexivity.
Qed.

(** A name [unique_name] returns: the prefix and the eight characters last
    drawn; its path in the current directory was free; the file system is
    as it was before, the temporary file is gone again. *)
Lemma unique_name_return (w w' : World) (n : string) :
  unique_name env w = (Return n, w') ->
  n = "gmt-python-" +:+ random_name env 8 (rng w' - 8)
  /\ fs w !! os_path.join os_path.curdir n = None
  /\ fs w' = fs w
  /\ calls w' = calls w /\ procs w' = procs w.
Proof.
  unfold unique_name, NamedTemporaryFile. unfold bind at 1.
  destruct (mktemp_loop env (TMP_MAX env) (File []) os_path.curdir "gmt-python-" w)
    as [[file|e] w1] eqn:Hloop; [|discriminate].
  apply mktemp_loop_return in Hloop
    as (Hfile & Hnone & Hfs & Hcalls & Hprocs & Hrng).
  unfold bind, tmpfile_close, modify, ret. intros [= <- <-].
  cbn [fs calls procs rng set_fs].
  rewrite join_curdir in Hfile.
  assert (Htail : os_path.split_tail file =
                  "gmt-python-" +:+ random_name env 8 (rng w1 - 8)).
  { rewrite Hfile. apply split_tail_curdir, random_name_no_sep. }
  rewrite Htail, join_curdir. rewrite <- Hfile.
  repeat split; try assumption.
  rewrite Hfs. now apply delete_insert_id.
Qed.

Lemma append_inj_prefix (pre s1 s2 : string) : pre +:+ s1 = pre +:+ s2 -> s1 = s2.
Proof.
  induction pre as [|a pre IH]; cbn [String.append]; [tauto|].
  intros [= H]. now apply IH.
Qed.

(** The figure [Figure()] returns bears the name [unique_name] makes in
    the world of the construction. *)
Lemma new_name (w w' : World) (f : Figure.t) :
  Figure.new env w = (Return f, w') ->
  exists n w1, unique_name env w = (Return n, w1) /\ Figure._name f = Some n.
Proof.
  unfold Figure.new, Figure.__init__.
  unfold bind at 1. unfold Figure.liftW at 1. cbn [fst snd].
  destruct (unique_name env w) as [[n|e] w1]; [|discriminate].
  unfold bind at 1. unfold Figure.setattr, modify at 1. cbn [fst snd].
  unfold bind at 1. unfold Figure.getattr at 1. cbn [fst snd Figure._name].
  unfold bind at 1. unfold Figure.liftW at 1. cbn [fst snd].
  destruct (TemporaryDirectory env (n +:+ "-preview-") w1) as [[dir|e] w2];
    [|discriminate].
  unfold modify. cbn [fst snd Figure._name Figure._preview_dir].
  intros [= <- <-]. now exists n, w1.
Qed.

(** What a construction that returns has done. *)
Lemma new_return (w w' : World) (f : Figure.t) :
  Figure.new env w = (Return f, w') ->
  exists n m dir,
    unique_name env w = (Return n, m)
    /\ TemporaryDirectory env (n +:+ "-preview-") m = (Return dir, w')
    /\ f = Figure.mk (Some n) (Some dir).
Proof.
  unfold Figure.new, Figure.__init__.
  unfold bind at 1. unfold Figure.liftW at 1. cbn [fst snd].
  destruct (unique_name env w) as [[n|e] m]; [|discriminate].
  unfold bind at 1. unfold Figure.setattr, modify at 1. cbn [fst snd].
  unfold bind at 1. unfold Figure.getattr at 1. cbn [fst snd Figure._name].
  unfold bind at 1. unfold Figure.liftW at 1. cbn [fst snd].
  destruct (TemporaryDirectory env (n +:+ "-preview-") m) as [[dir|e] w2] eqn:Ht;
    [|discriminate].
  unfold modify. cbn [fst snd Figure._name Figure._preview_dir].
  intros [= <- <-]. now exists n, m, dir.
Qed.

End TempNames.

(** C7. The claim fails on the code when the generator of [tempfile]
    draws the same eight characters again: the temporary file that
    reserved the first name was deleted before the name was returned, so
    nothing refuses the second.  Two figures made one after the other then
    bear the same name, the first being still alive, and so do two names
    asked of [unique_name] in a row. *)
Theorem figure_names_repeat :
  let first := Figure.new Sample.linux_repeating Sample.w0 in
  let second := Figure.new Sample.linux_repeating (snd first) in
  let name1 := unique_name Sample.linux Sample.w0 in
  let name2 := unique_name Sample.linux (snd name1) in
  fst first = Return (Figure.mk (Some "gmt-python-aaaaaaaa")
                        (Some "/tmp/gmt-python-aaaaaaaa-preview-aaaaaaaa"))
  /\ fst second = Return (Figure.mk (Some "gmt-python-aaaaaaaa")
                            (Some "/tmp/gmt-python-aaaaaaaa-preview-bbbbbbbb"))
  /\ fst name1 = Return "gmt-python-aaaaaaaa"
  /\ fst name2 = Return "gmt-python-aaaaaaaa".
Proof.
  vm_compute. repeat split.
Qed.

(** ** The attributes of a figure *)

Section Attributes.
Variable env : Env.

Lemma keeps_ret {A} (a : A) : keeps_self (ret a).
Proof. now intros s. Qed.

Lemma keeps_raise {A} (e : exn) : keeps_self (@raise _ A e).
Proof. now intros s. Qed.

Lemma keeps_bind {A B} (m : Figure.Meth A) (k : A -> Figure.Meth B) :
  keeps_self m -> (forall a, keeps_self (k a)) -> keeps_self (bind m k).
Proof.
  intros Hm Hk s. unfold bind. specialize (Hm s).
  destruct (m s) as [[a|e] s1]; cbn [fst snd] in *.
  - now rewrite Hk.
  - exact Hm.
Qed.

Lemma keeps_liftW {A} (m : M World A) : keeps_self (Figure.liftW m).
Proof. intros s. unfold Figure.liftW. now destruct (m (snd s)). Qed.

Lemma keeps_getattr (attr : string) (field : Figure.t -> option string) :
  keeps_self (Figure.getattr attr field).
Proof. intros s. unfold Figure.getattr. now destruct (field (fst s)). Qed.

Lemma keeps_hasattr (field : Figure.t -> option string) :
  keeps_self (Figure.hasattr field).
Proof. now intros s. Qed.

Lemma keeps_assert (cond : bool) (msg : string) : keeps_self (assert cond msg).
Proof. intros s. unfold assert. now destruct cond. Qed.

Lemma keeps_keywords (explicit kwargs : dict pyval) :
  keeps_self (Figure.keywords explicit kwargs).
Proof. intros s. unfold Figure.keywords. now destruct (Dict.clash _ _). Qed.

Create HintDb keeps.
#[local] Hint Resolve keeps_ret keeps_raise keeps_liftW keeps_getattr
  keeps_hasattr keeps_assert keeps_keywords : keeps.

Ltac keeps :=
  repeat first
    [ solve [auto with keeps]
    | match goal with
      | |- keeps_self (if ?c then _ else _) => destruct c
      | |- keeps_self (match ?v with _ => _ end) => destruct v
      | |- keeps_self (bind _ _) => apply keeps_bind; [|intros ?]
      end ].

Lemma keeps_preprocess kwargs : keeps_self (Figure._preprocess env kwargs).
Proof. unfold Figure._preprocess. keeps. Qed.

Lemma keeps_psconvert kwargs : keeps_self (Figure.psconvert env kwargs).
Proof.
  unfold Figure.psconvert, Figure.psconvert_body.
  apply keeps_bind; [apply keeps_preprocess|]. intros ?. keeps.
Qed.

Lemma keeps_savefig fname orientation transparent crop kwargs :
  keeps_self (Figure.savefig env fname orientation transparent crop kwargs).
Proof.
  unfold Figure.savefig.
  do 5 (apply keeps_bind; [keeps|]; intros ?).
  apply keeps_psconvert.
Qed.

Lemma keeps_preview fmt dpi anti_alias as_bytes :
  keeps_self (Figure._preview env fmt dpi anti_alias as_bytes).
Proof.
  unfold Figure._preview.
  do 2 (apply keeps_bind; [keeps|]; intros ?).
  apply keeps_bind; [apply keeps_savefig|]. intros ?. keeps.
Qed.

Lemma keeps_show dpi width external :
  keeps_self (Figure.show env dpi width external).
Proof.
  unfold Figure.show, Figure.Image. destruct external.
  - apply keeps_bind; [apply keeps_preview|]. intros ?. keeps.
  - apply keeps_bind; [apply keeps_preview|]. intros ?. keeps.
Qed.

Lemma keeps_repr_png : keeps_self (Figure._repr_png_ env).
Proof.
  unfold Figure._repr_png_.
  apply keeps_bind; [apply keeps_preview|]. intros ?. keeps.
Qed.

Lemma keeps_repr_html : keeps_self (Figure._repr_html_ env).
Proof.
  unfold Figure._repr_html_.
  apply keeps_bind; [apply keeps_preview|]. intros ?. keeps.
Qed.

Lemma keeps_del : keeps_self (Figure.__del__).
Proof. unfold Figure.__del__. keeps. Qed.

End Attributes.

(** C9. The name of a figure is assigned by the construction, where it is
    the name [unique_name] returns, and no operation assigns it again:
    after [psconvert], [savefig], [show], a preview, the display hooks
    [_repr_png_] and [_repr_html_], the selection hook [_preprocess] and
    the finaliser, whether they return or raise, the object has the name
    it had before. *)
Theorem figure_name_constant (env : Env) :
  (forall w w' f,
     Figure.new env w = (Return f, w') ->
     exists n w1, unique_name env w = (Return n, w1) /\ Figure._name f = Some n)
  /\ forall (self : Figure.t) (w : World),
       (forall kwargs,
          Figure._name (fst (snd (Figure.psconvert env kwargs (self, w))))
          = Figure._name self)
       /\ (forall fname orientation transparent crop kwargs,
            Figure._name
              (fst (snd (Figure.savefig env fname orientation transparent crop
                           kwargs (self, w))))
            = Figure._name self)
       /\ (forall dpi width external,
            Figure._name (fst (snd (Figure.show env dpi width external (self, w))))
            = Figure._name self)
       /\ (forall fmt dpi anti_alias as_bytes,
            Figure._name
              (fst (snd (Figure._preview env fmt dpi anti_alias as_bytes (self, w))))
            = Figure._name self)
       /\ Figure._name (fst (snd (Figure._repr_png_ env (self, w)))) = Figure._name self
       /\ Figure._name (fst (snd (Figure._repr_html_ env (self, w)))) = Figure._name self
       /\ (forall kwargs,
            Figure._name (fst (snd (Figure._preprocess env kwargs (self, w))))
            = Figure._name self)
       /\ Figure._name (fst (snd (Figure.__del__ (self, w)))) = Figure._name self.
Proof.
  split; [intros w w' f; apply new_name|].
  intros self w.
  repeat split; intros;
    match goal with
    | |- Figure._name (fst (snd (?m (self, w)))) = _ =>
        assert (H : keeps_self m);
        [| now rewrite (H (self, w))]
    end.
  - apply keeps_psconvert.
  - apply keeps_savefig.
  - apply keeps_show.
  - apply keeps_preview.
  - apply keeps_repr_png.
  - apply keeps_repr_html.
  - apply keeps_preprocess.
  - apply keeps_del.
Qed.

Lemma figure_name_constant_witness :
  exists n w1,
    unique_name Sample.linux Sample.w0 = (Return n, w1)
    /\ Figure._name (Figure.mk (Some "gmt-python-aaaaaaaa")
                       (Some "/tmp/gmt-python-aaaaaaaa-preview-aaaaaaaa")) = Some n.
Proof.
  apply (proj1 (figure_name_constant Sample.linux) Sample.w0
           (snd (Figure.new Sample.linux Sample.w0))).
  vm_compute. reflexivity.
Defined.

(** ** The path of a preview *)

Section PreviewPath.

Lemma join_shape (dir : string) (c : ascii) :
  c <> os_path.sep ->
  exists d,
    Z.of_nat (String.length d) = (Str.rfind os_path.sep d + 1)%Z
    /\ forall rest, os_path.join dir (String c rest) = d +:+ String c rest.
Proof.
  intros Hc.
  assert (Hstart : forall rest,
            Str.startswith (String os_path.sep "") (String c rest) = false).
  { intros rest. unfold Str.startswith, os_path.sep. cbn [String.prefix].
    destruct (ascii_dec "/" c) as [E|]; [|reflexivity].
    exfalso. apply Hc. now rewrite <- E. }
  unfold os_path.join.
  destruct (String.eqb_spec dir "") as [->|Hdir]; cbn [orb].
  - exists "". split; [reflexivity|]. intros rest. now rewrite Hstart.
  - destruct (Str.endswith os_path.sep dir) eqn:Hend.
    + exists dir. split; [|intros rest; now rewrite Hstart].
      apply endswith_split in Hend as [d0 ->].
      rewrite rfind_app_hit by reflexivity.
      rewrite length_append. cbn [String.length]. lia.
    + exists (dir +:+ String os_path.sep ""). split.
      * rewrite rfind_app_hit by reflexivity.
        rewrite length_append. cbn [String.length]. lia.
      * intros rest. rewrite Hstart. now rewrite append_assoc.
Qed.

(** The path of a preview splits into the path without extension and the
    format. *)
Lemma splitext_join (dir n fmt : string) :
  plain_name n ->
  Str.mem os_path.extsep fmt = false -> Str.mem os_path.sep fmt = false ->
  os_path.splitext (os_path.join dir (n +:+ "." +:+ fmt))
  = (os_path.join dir n, "." +:+ fmt).
Proof.
  intros (Hsep & c & n' & -> & Hdot) Hfd Hfs.
  assert (Hc : c <> os_path.sep).
  { intros ->. cbn [Str.mem] in Hsep. now rewrite Ascii.eqb_refl in Hsep. }
  destruct (join_shape dir c Hc) as (d & Hd & Hjoin).
  cbn [String.append]. rewrite !Hjoin.
  set (n := String c n') in *.
  assert (Hp : d +:+ String c (n' +:+ String "." fmt) = (d +:+ n) +:+ String "." fmt).
  { subst n. now rewrite append_assoc. }
  assert (Hdotidx : Str.rfind os_path.extsep (d +:+ String c (n' +:+ String "." fmt))
                    = Z.of_nat (String.length (d +:+ n))).
  { rewrite Hp. now apply rfind_app_hit. }
  assert (Hsepidx : Str.rfind os_path.sep (d +:+ String c (n' +:+ String "." fmt))
                    = Str.rfind os_path.sep d).
  { apply rfind_app_absent.
    change (String c (n' +:+ String "." fmt)) with (n +:+ String "." fmt).
    rewrite mem_append, Hsep. cbn [Str.mem orb]. now rewrite Hfs. }
  unfold os_path.splitext. rewrite Hdotidx, Hsepidx.
  rewrite length_append in *.
  pose proof (rfind_lower os_path.sep d) as Hlow.
  replace (Str.rfind os_path.sep d <? Z.of_nat (String.length d + String.length n))%Z
    with true by (symmetry; apply Z.ltb_lt; lia).
  replace (Z.to_nat (Str.rfind os_path.sep d + 1)) with (String.length d) by lia.
  replace (Z.to_nat (Z.of_nat (String.length d + String.length n)
                     - (Str.rfind os_path.sep d + 1)))
    with (S (String.length n')) by (subst n; cbn [String.length]; lia).
  cbn [os_path.splitext_loop].
  rewrite substring_app_head.
  replace (String.eqb (String c "") (String os_path.extsep "")) with false.
  2:{ symmetry. apply String.eqb_neq. intros [= E]. now apply Hdot. }
  cbn [negb]. rewrite Nat2Z.id, <- length_append, Hp.
  now rewrite take_app, drop_app.
Qed.


End PreviewPath.

(** ** Previews *)

Section Preview.
Variable env : Env.

Lemma preview_run (self : Figure.t) (w : World) (fmt : string) (dpi : pyval)
    (anti_alias as_bytes : bool) (dir n : string) :
  Figure._preview_dir self = Some dir ->
  Figure._name self = Some n ->
  Figure._preview env fmt dpi anti_alias as_bytes (self, w) =
  (Figure.savefig env (os_path.join dir (n +:+ "." +:+ fmt)) "portrait" false true
     (preview_args dpi anti_alias) ;;
   if as_bytes
   then preview <- Figure.liftW (read_bytes (os_path.join dir (n +:+ "." +:+ fmt))) ;;
        ret (VBytes preview)
   else ret (VStr (os_path.join dir (n +:+ "." +:+ fmt)))) (self, w).
Proof.
  intros Hdir Hn. unfold Figure._preview.
  unfold bind at 1. unfold Figure.getattr at 1. cbn [fst snd]. rewrite Hdir.
  unfold bind at 1. unfold Figure.getattr at 1. cbn [fst snd]. rewrite Hn.
  now destruct anti_alias.
Qed.

Lemma preview_return (self : Figure.t) (w : World) (fmt : string) (dpi : pyval)
    (anti_alias as_bytes : bool) (dir n : string) (v : pyval) (s' : Figure.t * World) :
  Figure._preview_dir self = Some dir ->
  Figure._name self = Some n ->
  Figure._preview env fmt dpi anti_alias as_bytes (self, w) = (Return v, s') ->
  fst s' = self
  /\ if as_bytes
     then exists data, v = VBytes data
          /\ fs (snd s') !! os_path.join dir (n +:+ "." +:+ fmt) = Some (File data)
     else v = VStr (os_path.join dir (n +:+ "." +:+ fmt)).
Proof.
  intros Hdir Hn Hrun.
  split.
  { pose proof (keeps_preview env fmt dpi anti_alias as_bytes (self, w)) as Hk.
    now rewrite Hrun in Hk. }
  rewrite (preview_run _ _ _ _ _ _ _ _ Hdir Hn) in Hrun.
  unfold bind at 1 in Hrun.
  destruct (Figure.savefig env _ "portrait" false true _ (self, w))
    as [[[]|e] s1]; [|discriminate].
  destruct as_bytes.
  - unfold bind, Figure.liftW, read_bytes, ret in Hrun.
    destruct (fs (snd s1) !! os_path.join dir (n +:+ "." +:+ fmt))
      as [[data|]|] eqn:Hfile; try discriminate.
    injection Hrun as <- <-. exists data. now split.
  - unfold ret in Hrun. now injection Hrun as <- <-.
Qed.

End Preview.

(** ** The conversion of a preview *)

Section PreviewConversion.
Variable env : Env.







End PreviewConversion.



(** ** [show] *)

Section Show.
Variable env : Env.

Ltac case_savefig :=
  match goal with
  | |- context [Figure.savefig env ?p ?o ?t ?c ?k ?s0] =>
      destruct (Figure.savefig env p o t c k s0) as [[[]|?e] ?s]
  end.

Lemma show_external_run (dpi width : pyval) (self : Figure.t) (w : World)
    (dir n : string) :
  Figure._preview_dir self = Some dir ->
  Figure._name self = Some n ->
  Figure.show env dpi width true (self, w) =
  (Figure.savefig env (os_path.join dir (n +:+ ".pdf")) "portrait" false true
     [("dpi", VInt 600)] ;;
   Figure.liftW (launch_external_viewer env (os_path.join dir (n +:+ ".pdf"))) ;;
   ret VNone) (self, w).
Proof.
  intros Hdir Hn. unfold Figure.show.
  unfold bind at 1. rewrite (preview_run env _ _ _ _ _ _ _ _ Hdir Hn).
  unfold preview_args. change ("." +:+ "pdf") with ".pdf".
  unfold bind. case_savefig; reflexivity.
Qed.

Lemma show_embedded_run (dpi width : pyval) (self : Figure.t) (w : World)
    (dir n : string) :
  Figure._preview_dir self = Some dir ->
  Figure._name self = Some n ->
  Figure.show env dpi width false (self, w) =
  (Figure.savefig env (os_path.join dir (n +:+ ".png")) "portrait" false true
     [("dpi", dpi); ("Qg", VInt 4); ("Qt", VInt 4)] ;;
   png <- Figure.liftW (read_bytes (os_path.join dir (n +:+ ".png"))) ;;
   Figure.Image env (VBytes png) width) (self, w).
Proof.
  intros Hdir Hn. unfold Figure.show.
  unfold bind at 1. rewrite (preview_run env _ _ _ _ _ _ _ _ Hdir Hn).
  unfold preview_args. change ("." +:+ "png") with ".png".
  unfold bind. case_savefig; [|reflexivity].
  destruct (Figure.liftW (read_bytes (os_path.join dir (n +:+ ".png"))) s)
    as [[png|e] s2]; [|reflexivity].
  unfold ret at 1.
  now destruct (Figure.Image env (VBytes png) width s2) as [[img|e] s3].
Qed.

Lemma show_external_none (dpi width v : pyval) (s s' : Figure.t * World) :
  Figure.show env dpi width true s = (Return v, s') -> v = VNone.
Proof.
  unfold Figure.show. unfold bind at 1.
  destruct (Figure._preview env "pdf" (VInt 600) false false s)
    as [[pdf|e] s1]; [|discriminate].
  unfold bind.
  destruct (match pdf with
            | VStr pdf0 => Figure.liftW (launch_external_viewer env pdf0)
            | _ => raise TypeError
            end s1) as [[[]|e] s2]; [|discriminate].
  unfold ret. now intros [= <- _].
Qed.

Lemma show_embedded_image (dpi width v : pyval) (self : Figure.t) (w : World)
    (s' : Figure.t * World) :
  Figure.show env dpi width false (self, w) = (Return v, s') ->
  exists data, v = VImage (VBytes data) width.
Proof.
  unfold Figure.show. unfold bind at 1.
  destruct (Figure._preview env "png" dpi true true (self, w))
    as [[png|e] s1] eqn:Hprev; [|discriminate].
  assert (Hbytes : exists data, png = VBytes data).
  { unfold Figure._preview in Hprev.
    unfold bind at 1 in Hprev.
    destruct (Figure.getattr "_preview_dir" Figure._preview_dir (self, w))
      as [[dir|e] s2]; [|discriminate].
    unfold bind at 1 in Hprev.
    destruct (Figure.getattr "_name" Figure._name s2) as [[n|e] s3];
      [|discriminate].
    unfold bind at 1 in Hprev.
    destruct (Figure.savefig env _ "portrait" false true _ s3)
      as [[[]|e] s4]; [|discriminate].
    unfold bind in Hprev.
    destruct (Figure.liftW (read_bytes (os_path.join dir (n +:+ "." +:+ "png"))) s4)
      as [[data|e] s5]; [|discriminate].
    unfold ret in Hprev. injection Hprev as <- _. now exists data. }
  destruct Hbytes as [data ->].
  unfold bind, Figure.Image. destruct (IPython env); [|discriminate].
  unfold ret. intros [= <- _]. now exists data.
Qed.

End Show.

(** C10. [show] with [external=True] does not look at [dpi] or [width]:
    its run is the same for all their values; it saves the PDF preview
    with the keyword [dpi=600], which for a name as [unique_name] makes it
    reaches the convert wrapper as [dpi=600] with the format code 'f',
    opens the viewer and returns [None].  With [external=False] the
    [dpi] given is the keyword of the PNG preview, and what is returned is
    the image object made of the bytes of the preview and [width]. *)
Theorem show_external_ignores_dpi (env : Env) (dpi width : pyval)
    (self : Figure.t) (w : World) (dir n : string) :
  Figure._preview_dir self = Some dir ->
  Figure._name self = Some n ->
  (forall dpi' width',
     Figure.show env dpi width true (self, w)
     = Figure.show env dpi' width' true (self, w))
  /\ Figure.show env dpi width true (self, w) =
     (Figure.savefig env (os_path.join dir (n +:+ ".pdf")) "portrait" false true
        [("dpi", VInt 600)] ;;
      Figure.liftW (launch_external_viewer env (os_path.join dir (n +:+ ".pdf"))) ;;
      ret VNone) (self, w)
  /\ (plain_name n ->
      Figure.show env dpi width true (self, w) =
      (Figure.psconvert env
         [("prefix", VStr (os_path.join dir n)); ("fmt", VStr "f");
          ("crop", VBool true); ("portrait", VBool true); ("dpi", VInt 600)] ;;
       Figure.liftW (launch_external_viewer env (os_path.join dir (n +:+ ".pdf"))) ;;
       ret VNone) (self, w))
  /\ (forall v s', Figure.show env dpi width true (self, w) = (Return v, s') ->
                   v = VNone)
  /\ Figure.show env dpi width false (self, w) =
     (Figure.savefig env (os_path.join dir (n +:+ ".png")) "portrait" false true
        [("dpi", dpi); ("Qg", VInt 4); ("Qt", VInt 4)] ;;
      png <- Figure.liftW (read_bytes (os_path.join dir (n +:+ ".png"))) ;;
      Figure.Image env (VBytes png) width) (self, w)
  /\ (forall v s', Figure.show env dpi width false (self, w) = (Return v, s') ->
                   exists data, v = VImage (VBytes data) width).
Proof.
  intros Hdir Hn.
  split; [reflexivity|].
  split; [now apply show_external_run|].
  split.
  - intros Hplain. rewrite (show_external_run env _ _ _ _ _ _ Hdir Hn).
    unfold bind at 1. unfold bind at 3.
    assert (Hsplit : os_path.splitext (os_path.join dir (n +:+ "." +:+ "pdf"))
                     = (os_path.join dir n, "." +:+ "pdf"))
      by (now apply splitext_join).
    cbn [String.append] in Hsplit.
    rewrite (savefig_call env _ "portrait" false true _ (self, w) "f").
    + cbn [app]. rewrite Hsplit. reflexivity.
    + reflexivity.
    + unfold extension. now rewrite Hsplit.
    + discriminate.
    + intros k Hk. unfold savefig_owned in Hk. cbn [In] in Hk.
      repeat destruct Hk as [<-|Hk]; try reflexivity. destruct Hk.
  - split; [intros v s'; apply show_external_none|].
    split; [now apply show_embedded_run|].
    intros v s'; apply show_embedded_image.
Qed.

Lemma show_external_ignores_dpi_witness :
  Figure.show Sample.linux_rendering (VInt 72) (VInt 500) true (Sample.fig, Sample.w0)
  = Figure.show Sample.linux_rendering (VInt 1200) (VInt 80) true (Sample.fig, Sample.w0)
  /\ fst (Figure.show Sample.linux_rendering (VInt 72) (VInt 500) true
            (Sample.fig, Sample.w0)) = Return VNone
  /\ exists data,
       fst (Figure.show Sample.linux_rendering (VInt 72) (VInt 500) false
              (Sample.fig, Sample.w0)) = Return (VImage (VBytes data) (VInt 500)).
Proof.
  destruct (show_external_ignores_dpi Sample.linux_rendering (VInt 72) (VInt 500)
              Sample.fig Sample.w0 "/tmp/gmt-python-aaaaaaaa-preview-aaaaaaaa"
              "gmt-python-aaaaaaaa" eq_refl eq_refl)
    as (Hsame & _ & _ & Hnone & _ & Himg).
  split; [apply Hsame|].
  split.
  - vm_compute. reflexivity.
  - destruct (Himg (VImage (VBytes [x2a; x2a]) (VInt 500))
                (snd (Figure.show Sample.linux_rendering (VInt 72) (VInt 500) false
                        (Sample.fig, Sample.w0)))) as [data Hdata].
    + vm_compute. reflexivity.
    + exists data. rewrite <- Hdata. vm_compute. reflexivity.
Defined.

(** * Further properties of the module *)

(** ** The external viewer on other platforms *)

(** X1. On a platform whose name neither starts with 'linux' nor is
    'darwin', [launch_external_viewer] starts no program: it opens the
    URL 'file://' followed by the file name in a new tab of the web
    browser and returns; whether a program could be started plays no
    part. *)
Theorem launch_external_viewer_browser_fallback (env : Env) (fname : string)
    (w : World) :
  viewer_command (platform env) = None ->
  launch_external_viewer env fname w =
  (Return tt, set_procs (procs w ++ [BrowserTab ("file://" +:+ fname)]) w).
Proof.
  unfold viewer_command, launch_external_viewer. cbn [fst snd].
  destruct (Str.startswith "linux" (platform env)); [discriminate|].
  destruct (String.eqb (platform env) "darwin"); [discriminate|].
  reflexivity.
Qed.

Lemma launch_external_viewer_browser_fallback_witness :
  launch_external_viewer Sample.windows "C:/fig.pdf" Sample.w0 =
  (Return tt, set_procs [BrowserTab "file://C:/fig.pdf"] Sample.w0).
Proof.
  apply (launch_external_viewer_browser_fallback Sample.windows "C:/fig.pdf"
           Sample.w0 eq_refl).
Defined.

(** X2. Whatever the platform and whatever becomes of the program,
    [launch_external_viewer] makes no native call, leaves the files and
    the generator of names alone, and only adds to the requests made of
    the operating system: at most one program is started, and then with
    both output streams discarded. *)
Theorem launch_external_viewer_frame (env : Env) (fname : string) (w : World) :
  let w' := snd (launch_external_viewer env fname w) in
  calls w' = calls w /\ fs w' = fs w /\ rng w' = rng w
  /\ exists added,
       procs w' = procs w ++ added
       /\ (added = []
           \/ added = [BrowserTab ("file://" +:+ fname)]
           \/ exists cmd, added = [Popen [cmd; fname] DEVNULL DEVNULL; Wait [cmd; fname]]).
Proof.
  unfold launch_external_viewer. cbn [fst snd].
  assert (Hrun : forall cmd,
    let w' := snd ((subprocess_run env [cmd; fname] DEVNULL DEVNULL ;; ret tt) w) in
    calls w' = calls w /\ fs w' = fs w /\ rng w' = rng w
    /\ exists added,
         procs w' = procs w ++ added
         /\ (added = []
             \/ added = [BrowserTab ("file://" +:+ fname)]
             \/ exists cmd, added = [Popen [cmd; fname] DEVNULL DEVNULL; Wait [cmd; fname]])).
  { intros cmd. unfold bind, subprocess_run.
    destruct (exec env [cmd; fname]); cbn [snd calls fs rng procs set_procs].
    - repeat split. eexists. split; [reflexivity|]. right; right. now exists cmd.
    - repeat split. exists []. split; [now rewrite app_nil_r | now left]. }
  destruct (Str.startswith "linux" (platform env)); [apply Hrun|].
  destruct (String.eqb (platform env) "darwin"); [apply Hrun|].
  unfold webbrowser_open_new_tab, modify. cbn [snd calls fs rng procs set_procs].
  repeat split. eexists. split; [reflexivity|]. right; now left.
Qed.

(** ** Failures of the engine *)


(** X3. A failure of the engine goes through [psconvert] as it is.  When
    the selection of the figure fails, [psconvert] raises the engine's
    error and the conversion is not asked for; when the selection
    succeeds and the conversion fails, it raises the engine's error and
    the files are as the selection left them; it returns only when both
    calls succeed.  The figure is never changed, no call is repeated and
    no other call is made. *)
Theorem psconvert_engine_failure (env : Env) (kwargs : dict pyval)
    (self : Figure.t) (w : World) (n : string) :
  Figure._name self = Some n ->
  let select := calls w ++ [("figure", n +:+ " -")] in
  (engine env select (fs w) = None ->
   Figure.psconvert env kwargs (self, w)
   = (Raise GMTCLibError, (self, set_calls select w)))
  /\ forall fs1,
       engine env select (fs w) = Some fs1 ->
       exists args,
         let convert := select ++ [("psconvert", args)] in
         (engine env convert fs1 = None ->
          Figure.psconvert env kwargs (self, w)
          = (Raise GMTCLibError, (self, mkWorld convert (procs w) fs1 (rng w))))
         /\ forall fs2,
              engine env convert fs1 = Some fs2 ->
              Figure.psconvert env kwargs (self, w)
              = (Return tt, (self, mkWorld convert (procs w) fs2 (rng w))).
Proof.
  intros Hn select. unfold Figure.psconvert.
  rewrite (psconvert_body_run env _ _ _ _ Hn), select_convert_run.
  fold select. split.
  - now intros ->.
  - intros fs1 ->. eexists. split.
    + now intros ->.
    + now intros fs2 ->.
Qed.

Lemma psconvert_engine_failure_witness :
  exists args,
    Figure.psconvert Sample.linux_failing [("T", VStr "g")] (Sample.fig, Sample.w0)
    = (Raise GMTCLibError,
       (Sample.fig,
        mkWorld ([("figure", "gmt-python-aaaaaaaa -")] ++ [("psconvert", args)])
                [] ∅ 0)).
Proof.
  destruct (psconvert_engine_failure Sample.linux_failing [("T", VStr "g")]
              Sample.fig Sample.w0 "gmt-python-aaaaaaaa" eq_refl)
    as [_ Hsel].
  destruct (Hsel ∅ eq_refl) as (args & Hfail & _).
  exists args. apply Hfail. reflexivity.
Defined.

(** ** The errors of [savefig] *)

Section SavefigErrors.
Variable env : Env.

Lemma orientation_invalid (orientation : string) :
  ~ In orientation orientations ->
  existsb (String.eqb orientation) orientations = false.
Proof.
  intros H. apply not_true_is_false. intros Ho.
  apply orientation_valid in Ho. apply H. unfold orientations. cbn [In].
  destruct Ho as [->| ->]; tauto.
Qed.

Lemma orientation_listed (orientation : string) :
  In orientation orientations ->
  existsb (String.eqb orientation) orientations = true.
Proof.
  intros H. apply orientation_valid. unfold orientations in H. cbn [In] in H.
  destruct H as [<-|[<-|[]]]; tauto.
Qed.

Lemma extension_unsupported (ext : string) :
  ~ In ext supported -> Dict.mem ext Figure.fmts = false.
Proof.
  intros H. apply not_true_is_false. intros Hm. now apply fmts_supported in Hm.
Qed.

(** A name whose last component has no dot after its first character has
    no extension. *)
Lemma splitext_none (p : string) :
  (Str.rfind os_path.extsep p <= Str.rfind os_path.sep p + 1)%Z ->
  os_path.splitext p = (p, "").
Proof.
  intros H. unfold os_path.splitext.
  destruct (Str.rfind os_path.sep p <? Str.rfind os_path.extsep p)%Z eqn:E;
    [|reflexivity].
  apply Z.ltb_lt in E.
  replace (Z.to_nat (Str.rfind os_path.extsep p - (Str.rfind os_path.sep p + 1)))
    with 0 by lia.
  reflexivity.
Qed.

(** How [savefig] ends when it raises on a figure that has a name. *)
Lemma savefig_raise (fname orientation : string) (transparent crop : bool)
    (kwargs : dict pyval) (self : Figure.t) (w : World) (n : string) (e : exn)
    (s' : Figure.t * World) :
  Figure._name self = Some n ->
  Figure.savefig env fname orientation transparent crop kwargs (self, w)
  = (Raise e, s') ->
  (((exists msg, e = AssertionError msg) \/ e = TypeError) /\ s' = (self, w))
  \/ (e = GMTCLibError /\ fst s' = self
      /\ exists new_calls,
           calls_since w (snd s') new_calls /\ select_then_convert n new_calls).
Proof.
  intros Hn.
  destruct (existsb (String.eqb orientation) orientations) eqn:Ho.
  2:{ rewrite savefig_bad_orientation by exact Ho.
      intros [= <- <-]. left. split; [left; eauto | reflexivity]. }
  destruct (Dict.get (extension fname) Figure.fmts) as [code|] eqn:Hg.
  2:{ rewrite savefig_bad_extension;
        [|exact Ho | unfold Dict.mem; now rewrite Hg].
      intros [= <- <-]. left. split; [left; eauto | reflexivity]. }
  assert (Ht : (transparent = true -> extension fname = "png")
               \/ (transparent = true /\ extension fname <> "png")).
  { destruct transparent; [|left; discriminate].
    destruct (String.eqb_spec (extension fname) "png"); [left|right]; tauto. }
  destruct Ht as [Ht | [-> Ht]].
  2:{ rewrite (savefig_transparent_not_png env _ _ _ _ _ code Ho Hg Ht).
      intros [= <- <-]. left. split; [left; eauto | reflexivity]. }
  destruct (existsb (fun k => Dict.mem k kwargs) savefig_owned) eqn:Hc.
  - rewrite (savefig_clash env _ _ _ _ _ _ code Ho Hg Ht).
    + intros [= <- <-]. left. split; [now right | reflexivity].
    + apply existsb_exists in Hc as (k & Hk & Hm). now exists k.
  - rewrite (savefig_call env _ _ _ _ _ _ code Ho Hg Ht).
    2:{ intros k Hk. apply not_true_is_false; intros Hm.
        assert (existsb (fun k => Dict.mem k kwargs) savefig_owned = true)
          by (apply existsb_exists; now exists k).
        congruence. }
    unfold Figure.psconvert.
    rewrite (psconvert_body_run env _ _ _ _ Hn).
    match goal with
    | |- context [call_module env "psconvert" ?a] =>
        pose proof (select_convert_calls env n a self w) as Hcalls;
        rewrite (select_convert_run env n a self w) in *
    end.
    cbv zeta in Hcalls.
    destruct (engine env (calls w ++ [("figure", n +:+ " -")]) (fs w)) as [fs1|].
    + match goal with
      | |- context [engine env ?l fs1] => destruct (engine env l fs1)
      end; [discriminate|].
      intros [= <- <-]. right. split; [reflexivity|]. exact Hcalls.
    + intros [= <- <-]. right. split; [reflexivity|]. exact Hcalls.
Qed.

End SavefigErrors.

(** X4. The three checks of [savefig] come in a fixed order and each has
    its message.  An orientation other than 'portrait' and 'landscape' is
    reported first, as "Invalid orientation '<orientation>'.", whatever
    the file name; then an extension outside the table, as "Unknown
    extension '.<ext>'", whether transparency is asked or not; then
    transparency for a supported extension other than png, as
    "Transparency unavailable for '<ext>', only for png.".  In each case
    the figure and the world are as before. *)
Theorem savefig_error_messages (env : Env) (fname orientation : string)
    (transparent crop : bool) (kwargs : dict pyval) (s : Figure.t * World) :
  (~ In orientation orientations ->
   Figure.savefig env fname orientation transparent crop kwargs s
   = (Raise (AssertionError ("Invalid orientation '" +:+ orientation +:+ "'.")), s))
  /\ (In orientation orientations -> ~ In (extension fname) supported ->
      Figure.savefig env fname orientation transparent crop kwargs s
      = (Raise (AssertionError ("Unknown extension '." +:+ extension fname +:+ "'")), s))
  /\ (In orientation orientations -> In (extension fname) supported ->
      extension fname <> "png" ->
      Figure.savefig env fname orientation true crop kwargs s
      = (Raise (AssertionError ("Transparency unavailable for '" +:+ extension fname
                                +:+ "', only for png.")), s)).
Proof.
  split; [|split].
  - intros Ho. now apply savefig_bad_orientation, orientation_invalid.
  - intros Ho He. apply savefig_bad_extension.
    + now apply orientation_listed.
    + now apply extension_unsupported.
  - intros Ho He Hpng.
    apply fmts_supported in He. unfold Dict.mem in He.
    destruct (Dict.get (extension fname) Figure.fmts) as [code|] eqn:Hg;
      [|discriminate].
    apply savefig_transparent_not_png with (code := code); try assumption.
    now apply orientation_listed.
Qed.

Lemma savefig_error_messages_witness :
  Figure.savefig Sample.linux "out.gif" "upright" true true [] (Sample.fig, Sample.w0)
  = (Raise (AssertionError "Invalid orientation 'upright'."), (Sample.fig, Sample.w0))
  /\ Figure.savefig Sample.linux "out.gif" "landscape" true true []
       (Sample.fig, Sample.w0)
     = (Raise (AssertionError "Unknown extension '.gif'"), (Sample.fig, Sample.w0))
  /\ Figure.savefig Sample.linux "out.tif" "landscape" true true []
       (Sample.fig, Sample.w0)
     = (Raise (AssertionError "Transparency unavailable for 'tif', only for png."),
        (Sample.fig, Sample.w0)).
Proof.
  split; [|split].
  - apply (proj1 (savefig_error_messages Sample.linux "out.gif" "upright" true true
                    [] (Sample.fig, Sample.w0))).
    unfold orientations. cbn [In]. intuition discriminate.
  - apply (proj1 (proj2 (savefig_error_messages Sample.linux "out.gif" "landscape"
                           true true [] (Sample.fig, Sample.w0)))).
    + right; left; reflexivity.
    + unfold supported. vm_compute. intuition discriminate.
  - apply (proj2 (proj2 (savefig_error_messages Sample.linux "out.tif" "landscape"
                           true true [] (Sample.fig, Sample.w0)))).
    + right; left; reflexivity.
    + vm_compute. tauto.
    + discriminate.
Defined.

(** X5. On a figure that has a name, [savefig] raises nothing but an
    [AssertionError] or a [TypeError], both before anything is done (the
    figure and the world are as before), or the error of the engine, after
    the selection of the figure.  In particular the look-up in the table
    of formats never raises a [KeyError]: the assertion before it has
    refused the extension. *)
Theorem savefig_exceptions (env : Env) (fname orientation : string)
    (transparent crop : bool) (kwargs : dict pyval) (self : Figure.t) (w : World)
    (n : string) (e : exn) (s' : Figure.t * World) :
  Figure._name self = Some n ->
  Figure.savefig env fname orientation transparent crop kwargs (self, w)
  = (Raise e, s') ->
  (forall key, e <> KeyError key)
  /\ ((((exists msg, e = AssertionError msg) \/ e = TypeError) /\ s' = (self, w))
      \/ (e = GMTCLibError /\ fst s' = self
          /\ exists new_calls,
               calls_since w (snd s') new_calls /\ select_then_convert n new_calls)).
Proof.
  intros Hn Hrun.
  pose proof (savefig_raise env _ _ _ _ _ _ _ _ _ _ Hn Hrun) as H.
  split; [|exact H].
  intros key ->.
  destruct H as [[[[msg Hm]|Hm] _] | [Hm _]]; discriminate Hm.
Qed.

Lemma savefig_exceptions_witness :
  (forall key, TypeError <> KeyError key)
  /\ ((((exists msg, TypeError = AssertionError msg) \/ TypeError = TypeError)
       /\ (Sample.fig, Sample.w0) = (Sample.fig, Sample.w0))
      \/ (TypeError = GMTCLibError /\ fst (Sample.fig, Sample.w0) = Sample.fig
          /\ exists new_calls,
               calls_since Sample.w0 (snd (Sample.fig, Sample.w0)) new_calls
               /\ select_then_convert "gmt-python-aaaaaaaa" new_calls)).
Proof.
  apply (savefig_exceptions Sample.linux "out.png" "portrait" false true
           [("fmt", VStr "f")] Sample.fig Sample.w0 "gmt-python-aaaaaaaa"
           TypeError (Sample.fig, Sample.w0) eq_refl).
  vm_compute. reflexivity.
Defined.

(** X6. A file name whose last component has no dot, or none but its first
    character ('figure', 'maps.d/figure', '.png', 'out/.png'), has no
    extension for [savefig], which refuses it with "Unknown extension '.'"
    and does nothing else. *)
Theorem savefig_needs_extension (env : Env) (fname orientation : string)
    (transparent crop : bool) (kwargs : dict pyval) (s : Figure.t * World) :
  In orientation orientations ->
  (Str.rfind os_path.extsep fname <= Str.rfind os_path.sep fname + 1)%Z ->
  Figure.savefig env fname orientation transparent crop kwargs s
  = (Raise (AssertionError "Unknown extension '.'"), s).
Proof.
  intros Ho Hdot.
  assert (Hext : extension fname = "").
  { unfold extension. now rewrite (splitext_none _ Hdot). }
  rewrite savefig_bad_extension.
  - now rewrite Hext.
  - now apply orientation_listed.
  - now rewrite Hext.
Qed.

Lemma savefig_needs_extension_witness :
  Figure.savefig Sample.linux "maps.d/.png" "portrait" false true []
    (Sample.fig, Sample.w0)
  = (Raise (AssertionError "Unknown extension '.'"), (Sample.fig, Sample.w0)).
Proof.
  apply (savefig_needs_extension Sample.linux "maps.d/.png" "portrait" false true
           [] (Sample.fig, Sample.w0)).
  - left; reflexivity.
  - vm_compute. discriminate.
Defined.

(** ** The names and directories of [tempfile] *)

Section TempFiles.
Variable env : Env.

Lemma mktemp_loop_raise (tries : nat) (what : node) (dir pre : string)
    (w w' : World) (e : exn) :
  mktemp_loop env tries what dir pre w = (Raise e, w') ->
  e = FileExistsError
  /\ fs w' = fs w /\ calls w' = calls w /\ procs w' = procs w.
Proof.
  revert w; induction tries as [|tries IH]; intros w; cbn [mktemp_loop].
  - unfold raise. now intros [= <- <-].
  - unfold bind at 1. unfold next_name at 1.
    unfold bind at 1. unfold gets at 1. cbn [fs set_rng].
    destruct (fs w !! os_path.join dir (pre +:+ random_name env 8 (rng w)))
      as [taken|].
    + intros H. apply IH in H. exact H.
    + unfold bind, modify, ret. discriminate.
Qed.

(** The loop returns the first candidate that is free. *)
Lemma mktemp_loop_first_free (k : nat) :
  forall (tries : nat) (what : node) (dir pre : string) (w : World),
    k < tries ->
    (forall j, j < k ->
       fs w !! os_path.join dir (pre +:+ random_name env 8 (rng w + 8 * j)) <> None) ->
    fs w !! os_path.join dir (pre +:+ random_name env 8 (rng w + 8 * k)) = None ->
    mktemp_loop env tries what dir pre w =
    (Return (os_path.join dir (pre +:+ random_name env 8 (rng w + 8 * k))),
     mkWorld (calls w) (procs w)
       (<[os_path.join dir (pre +:+ random_name env 8 (rng w + 8 * k)) := what]> (fs w))
       (rng w + 8 * (k + 1))).
Proof.
  induction k as [|k IH]; intros tries what dir pre w Hk Htaken Hfree;
    (destruct tries as [|tries]; [lia|]); cbn [mktemp_loop];
    unfold bind at 1; unfold next_name at 1;
    unfold bind at 1; unfold gets at 1; cbn [fs set_rng].
  - replace (rng w + 8 * 0) with (rng w) in * by lia. rewrite Hfree.
    unfold bind, modify, ret, set_fs, set_rng. cbn [fs calls procs rng].
    replace (rng w + 8 * (0 + 1)) with (rng w + 8) by lia. reflexivity.
  - specialize (Htaken 0 ltac:(lia)) as H0.
    replace (rng w + 8 * 0) with (rng w) in H0 by lia.
    destruct (fs w !! os_path.join dir (pre +:+ random_name env 8 (rng w)))
      as [taken|]; [|contradiction].
    rewrite (IH tries what dir pre (set_rng (rng w + 8) w)); cbn [fs calls procs rng set_rng].
    + replace (rng w + 8 + 8 * k) with (rng w + 8 * S k) by lia.
      replace (rng w + 8 + 8 * (k + 1)) with (rng w + 8 * (S k + 1)) by lia.
      reflexivity.
    + lia.
    + intros j Hj. replace (rng w + 8 + 8 * j) with (rng w + 8 * S j) by lia.
      apply Htaken. lia.
    + now replace (rng w + 8 + 8 * k) with (rng w + 8 * S k) by lia.
Qed.

Lemma unique_name_raise (w w' : World) (e : exn) :
  unique_name env w = (Raise e, w') ->
  fs w' = fs w /\ calls w' = calls w /\ procs w' = procs w.
Proof.
  unfold unique_name, NamedTemporaryFile. unfold bind at 1.
  destruct (mktemp_loop env (TMP_MAX env) (File []) os_path.curdir "gmt-python-" w)
    as [[file|e0] w1] eqn:Hloop.
  - unfold bind, tmpfile_close, modify, ret. discriminate.
  - intros [= <- <-]. now apply mktemp_loop_raise in Hloop as (_ & H).
Qed.

Lemma new_directory (w w' : World) (f : Figure.t) :
  Figure.new env w = (Return f, w') ->
  exists n dir,
    f = Figure.mk (Some n) (Some dir)
    /\ dir = os_path.join (tempdir env)
               ((n +:+ "-preview-") +:+ random_name env 8 (rng w' - 8))
    /\ fs w !! dir = None
    /\ fs w' = <[dir := Dir]> (fs w)
    /\ calls w' = calls w /\ procs w' = procs w.
Proof.
  intros H. apply new_return in H as (n & m & dir & Hu & Ht & ->).
  apply unique_name_return in Hu as (_ & _ & Hfs & Hcalls & Hprocs).
  unfold TemporaryDirectory in Ht.
  apply mktemp_loop_return in Ht as (Hdir & Hfree & Hfs' & Hcalls' & Hprocs' & _).
  exists n, dir. rewrite Hfs in *.
  repeat split; try assumption; congruence.
Qed.

End TempFiles.

(** X7. [unique_name] tries the candidate names in the order they are
    drawn and returns the first whose path in the current directory is
    free: when the first [k] candidates are taken and the next is not,
    with [k] below [TMP_MAX], the result is 'gmt-python-' and that
    candidate; eight characters were drawn for each candidate tried, and
    nothing else in the world has changed. *)
Theorem unique_name_first_free (env : Env) (w : World) (k : nat) :
  k < TMP_MAX env ->
  (forall j, j < k ->
     fs w !! ("./gmt-python-" +:+ random_name env 8 (rng w + 8 * j)) <> None) ->
  fs w !! ("./gmt-python-" +:+ random_name env 8 (rng w + 8 * k)) = None ->
  unique_name env w =
  (Return ("gmt-python-" +:+ random_name env 8 (rng w + 8 * k)),
   set_rng (rng w + 8 * (k + 1)) w).
Proof.
  intros Hk Htaken Hfree.
  unfold unique_name, NamedTemporaryFile. unfold bind at 1.
  rewrite (mktemp_loop_first_free env k (TMP_MAX env) (File []) os_path.curdir
             "gmt-python-" w Hk).
  - rewrite join_curdir.
    unfold bind, tmpfile_close, modify, ret.
    cbn [fs calls procs rng set_fs].
    rewrite split_tail_curdir by apply random_name_no_sep.
    unfold set_rng. rewrite delete_insert_id by exact Hfree. reflexivity.
  - intros j Hj. rewrite join_curdir. now apply Htaken.
  - rewrite join_curdir. exact Hfree.
Qed.

Lemma unique_name_first_free_witness :
  unique_name Sample.linux_counting
    (set_fs (<["./gmt-python-aaaaaaaa" := File []]> ∅) Sample.w0)
  = (Return "gmt-python-bbbbbbbb",
     set_rng 16 (set_fs (<["./gmt-python-aaaaaaaa" := File []]> ∅) Sample.w0)).
Proof.
  apply (unique_name_first_free Sample.linux_counting
           (set_fs (<["./gmt-python-aaaaaaaa" := File []]> ∅) Sample.w0) 1).
  - vm_compute. lia.
  - intros j Hj. assert (j = 0) as -> by lia. vm_compute. discriminate.
  - vm_compute. reflexivity.
Defined.

(** X8. [unique_name] leaves no trace: whether it returns a name or
    raises, the files are those that were there before, no native call
    was made and nothing was asked of the operating system. *)
Theorem unique_name_no_trace (env : Env) (w : World) :
  let w' := snd (unique_name env w) in
  fs w' = fs w /\ calls w' = calls w /\ procs w' = procs w.
Proof.
  destruct (unique_name env w) as [[n|e] w'] eqn:H; cbn [snd].
  - now apply unique_name_return in H as (_ & _ & H).
  - now apply unique_name_raise in H.
Qed.

(** X9. A construction that returns has made one thing: the directory of
    the previews, <tempdir>/<name>-preview-<eight characters drawn>, at a
    path that was free.  The figure holds the name and that path; no
    other file was made or removed, no native call was made and nothing
    was asked of the operating system. *)
Theorem new_creates_preview_dir (env : Env) (w w' : World) (f : Figure.t) :
  Figure.new env w = (Return f, w') ->
  exists n dir,
    f = Figure.mk (Some n) (Some dir)
    /\ dir = os_path.join (tempdir env)
               ((n +:+ "-preview-") +:+ random_name env 8 (rng w' - 8))
    /\ fs w !! dir = None
    /\ fs w' = <[dir := Dir]> (fs w)
    /\ calls w' = calls w /\ procs w' = procs w.
Proof. apply new_directory. Qed.

Lemma new_creates_preview_dir_witness :
  exists n dir,
    Figure.mk (Some "gmt-python-aaaaaaaa")
      (Some "/tmp/gmt-python-aaaaaaaa-preview-bbbbbbbb")
    = Figure.mk (Some n) (Some dir)
    /\ fs (snd (Figure.new Sample.linux_counting Sample.w0))
       = <[dir := Dir]> (fs Sample.w0).
Proof.
  destruct (new_creates_preview_dir Sample.linux_counting Sample.w0
              (snd (Figure.new Sample.linux_counting Sample.w0))
              (Figure.mk (Some "gmt-python-aaaaaaaa")
                 (Some "/tmp/gmt-python-aaaaaaaa-preview-bbbbbbbb")))
    as (n & dir & Hf & _ & _ & Hfs & _).
  - vm_compute. reflexivity.
  - now exists n, dir.
Defined.

(** X10. The preview directories of two figures that are alive together
    differ, even when their names are the same: the directory of the
    first figure exists from its construction on, and a construction in a
    world where it still exists gets another one. *)
Theorem live_figures_distinct_dirs (env : Env) (w1 w1' w2 w2' : World)
    (f1 f2 : Figure.t) :
  Figure.new env w1 = (Return f1, w1') ->
  Figure.new env w2 = (Return f2, w2') ->
  (exists d, Figure._preview_dir f1 = Some d /\ fs w1' !! d = Some Dir)
  /\ ((forall d, Figure._preview_dir f1 = Some d -> fs w2 !! d <> None) ->
      Figure._preview_dir f1 <> Figure._preview_dir f2).
Proof.
  intros H1 H2.
  apply new_directory in H1 as (n1 & d1 & -> & _ & _ & Hfs1 & _).
  apply new_directory in H2 as (n2 & d2 & -> & _ & Hfree2 & _).
  cbn [Figure._preview_dir]. split.
  - exists d1. split; [reflexivity|]. rewrite Hfs1. apply lookup_insert_eq.
  - intros Hlive [= ->]. now apply (Hlive d2).
Qed.

Lemma live_figures_distinct_dirs_witness :
  Figure._preview_dir
    (Figure.mk (Some "gmt-python-aaaaaaaa")
       (Some "/tmp/gmt-python-aaaaaaaa-preview-aaaaaaaa"))
  <> Figure._preview_dir
       (Figure.mk (Some "gmt-python-aaaaaaaa")
          (Some "/tmp/gmt-python-aaaaaaaa-preview-bbbbbbbb")).
Proof.
  apply (proj2 (live_figures_distinct_dirs Sample.linux_repeating
                  Sample.w0 (snd (Figure.new Sample.linux_repeating Sample.w0))
                  (snd (Figure.new Sample.linux_repeating Sample.w0))
                  (snd (Figure.new Sample.linux_repeating
                          (snd (Figure.new Sample.linux_repeating Sample.w0))))
                  _ _ ltac:(vm_compute; reflexivity) ltac:(vm_compute; reflexivity))).
  intros d [= <-]. vm_compute. discriminate.
Defined.

(** ** The end of a figure *)

Section Finaliser.

Lemma startswith_append (a b : string) : Str.startswith a (a +:+ b) = true.
Proof.
  unfold Str.startswith.
  induction a as [|c a IH]; cbn [String.append String.prefix].
  - now destruct b.
  - destruct (ascii_dec c c); [exact IH | contradiction].
Qed.

Lemma below_self (d : string) : below d d = true.
Proof. unfold below. now rewrite String.eqb_refl. Qed.

Lemma below_inside (d rest : string) : below d (d +:+ "/" +:+ rest) = true.
Proof.
  unfold below. apply orb_true_iff. right.
  change ("/" +:+ rest) with (String os_path.sep "" +:+ rest).
  rewrite <- append_assoc. apply startswith_append.
Qed.

Lemma cleanup_lookup (d p : string) (w : World) :
  fs (snd (cleanup d w)) !! p = if below d p then None else fs w !! p.
Proof.
  unfold cleanup, modify. cbn [snd fs set_fs].
  destruct (below d p) eqn:Hb.
  - apply map_lookup_filter_None_2. right. intros x _. cbn [fst]. congruence.
  - destruct (fs w !! p) as [x|] eqn:Hp.
    + now apply map_lookup_filter_Some_2.
    + apply map_lookup_filter_None_2. now left.
Qed.

End Finaliser.

(** X11. The finaliser of a figure removes the directory of its previews
    and every path below it, and nothing else: a path that is neither the
    directory nor below it holds what it held; no native call is made and
    the figure keeps its attributes.  An object that never got its
    directory, because its initialisation raised, is finalised without
    any effect. *)
Theorem del_removes_preview_dir (self : Figure.t) (w : World) :
  (forall dir,
     Figure._preview_dir self = Some dir ->
     exists w',
       Figure.__del__ (self, w) = (Return tt, (self, w'))
       /\ fs w' !! dir = None
       /\ (forall rest, fs w' !! (dir +:+ "/" +:+ rest) = None)
       /\ (forall p, below dir p = false -> fs w' !! p = fs w !! p)
       /\ calls w' = calls w /\ procs w' = procs w /\ rng w' = rng w)
  /\ (Figure._preview_dir self = None ->
      Figure.__del__ (self, w) = (Return tt, (self, w))).
Proof.
  split.
  - intros dir Hdir. exists (snd (cleanup dir w)).
    split.
    { unfold Figure.__del__, bind, Figure.hasattr, gets, Figure.getattr,
        Figure.liftW. cbn [fst snd]. rewrite Hdir. cbn [fst snd].
      rewrite Hdir. reflexivity. }
    split; [now rewrite cleanup_lookup, below_self|].
    split; [intros rest; now rewrite cleanup_lookup, below_inside|].
    split; [intros p Hp; now rewrite cleanup_lookup, Hp|].
    now unfold cleanup, modify.
  - intros Hdir.
    unfold Figure.__del__, bind, Figure.hasattr, gets. cbn [fst snd].
    now rewrite Hdir.
Qed.

Lemma del_removes_preview_dir_witness :
  exists w',
    Figure.__del__ (Sample.fig, Sample.w_preview) = (Return tt, (Sample.fig, w'))
    /\ fs w' !! "/tmp/gmt-python-aaaaaaaa-preview-aaaaaaaa" = None
    /\ fs w' !! Sample.preview_png = None
    /\ fs w' !! "/tmp/gmt-python-aaaaaaaa-preview-aaaaaaaa.txt" = Some (File [x2a]).
Proof.
  destruct (proj1 (del_removes_preview_dir Sample.fig Sample.w_preview)
              "/tmp/gmt-python-aaaaaaaa-preview-aaaaaaaa" eq_refl)
    as (w' & Hrun & Hdir & Hin & Hout & _).
  exists w'. split; [exact Hrun|]. split; [exact Hdir|].
  split; [exact (Hin "gmt-python-aaaaaaaa.png")|].
  rewrite Hout; reflexivity.
Defined.

(** ** What rendering leaves alone *)

Section Frames.
Variable env : Env.

Lemma quiet_ret {A} (a : A) : quiet (ret a).
Proof. now intros s. Qed.

Lemma quiet_raise {A} (e : exn) : quiet (@raise _ A e).
Proof. now intros s. Qed.

Lemma quiet_bind {A B} (m : Figure.Meth A) (k : A -> Figure.Meth B) :
  quiet m -> (forall a, quiet (k a)) -> quiet (bind m k).
Proof.
  intros Hm Hk s. unfold bind. specialize (Hm s).
  destruct (m s) as [[a|e] s1]; cbn [fst snd] in *; [|exact Hm].
  destruct (Hk a s1) as [Hp Hr]. destruct Hm as [Hp' Hr']. split; congruence.
Qed.

Lemma quiet_liftW {A} (m : M World A) :
  (forall w, procs (snd (m w)) = procs w /\ rng (snd (m w)) = rng w) ->
  quiet (Figure.liftW m).
Proof.
  intros H s. unfold Figure.liftW. specialize (H (snd s)).
  now destruct (m (snd s)).
Qed.

Lemma quiet_call_module (module args : string) :
  quiet (Figure.liftW (call_module env module args)).
Proof.
  apply quiet_liftW. intros w. unfold call_module.
  now destruct (engine env _ (fs w)).
Qed.

Lemma quiet_read_bytes (fname : string) : quiet (Figure.liftW (read_bytes fname)).
Proof.
  apply quiet_liftW. intros w. unfold read_bytes.
  now destruct (fs w !! fname) as [[|]|].
Qed.

Lemma quiet_getattr (attr : string) (field : Figure.t -> option string) :
  quiet (Figure.getattr attr field).
Proof. intros s. unfold Figure.getattr. now destruct (field (fst s)). Qed.

Lemma quiet_assert (cond : bool) (msg : string) : quiet (assert cond msg).
Proof. intros s. unfold assert. now destruct cond. Qed.

Lemma quiet_keywords (explicit kwargs : dict pyval) :
  quiet (Figure.keywords explicit kwargs).
Proof. intros s. unfold Figure.keywords. now destruct (Dict.clash _ _). Qed.

Create HintDb quiet.
#[local] Hint Resolve quiet_ret quiet_raise quiet_call_module quiet_read_bytes
  quiet_getattr quiet_assert quiet_keywords : quiet.

Ltac quiet :=
  repeat first
    [ solve [auto with quiet]
    | match goal with
      | |- quiet (if ?c then _ else _) => destruct c
      | |- quiet (match ?v with _ => _ end) => destruct v
      | |- quiet (bind _ _) => apply quiet_bind; [|intros ?]
      end ].

Lemma quiet_psconvert kwargs : quiet (Figure.psconvert env kwargs).
Proof.
  unfold Figure.psconvert, Figure.psconvert_body, Figure._preprocess, figure.
  quiet.
Qed.

Lemma quiet_savefig fname orientation transparent crop kwargs :
  quiet (Figure.savefig env fname orientation transparent crop kwargs).
Proof.
  unfold Figure.savefig.
  do 5 (apply quiet_bind; [quiet|]; intros ?).
  apply quiet_psconvert.
Qed.

Lemma quiet_preview fmt dpi anti_alias as_bytes :
  quiet (Figure._preview env fmt dpi anti_alias as_bytes).
Proof.
  unfold Figure._preview.
  do 2 (apply quiet_bind; [quiet|]; intros ?).
  apply quiet_bind; [apply quiet_savefig|]. intros ?. quiet.
Qed.

Lemma quiet_repr_png : quiet (Figure._repr_png_ env).
Proof.
  unfold Figure._repr_png_.
  apply quiet_bind; [apply quiet_preview|]. intros ?. quiet.
Qed.

Lemma quiet_repr_html : quiet (Figure._repr_html_ env).
Proof.
  unfold Figure._repr_html_.
  apply quiet_bind; [apply quiet_preview|]. intros ?. quiet.
Qed.

Lemma quiet_show_embedded dpi width : quiet (Figure.show env dpi width false).
Proof.
  unfold Figure.show, Figure.Image.
  apply quiet_bind; [apply quiet_preview|]. intros ?. quiet.
Qed.

(** Native calls *)

Lemma same_calls_ret {A} (a : A) : same_calls (ret a).
Proof. now intros s. Qed.

Lemma same_calls_raise {A} (e : exn) : same_calls (@raise _ A e).
Proof. now intros s. Qed.

Lemma same_calls_bind {A B} (m : Figure.Meth A) (k : A -> Figure.Meth B) :
  same_calls m -> (forall a, same_calls (k a)) -> same_calls (bind m k).
Proof.
  intros Hm Hk s. unfold bind. specialize (Hm s).
  destruct (m s) as [[a|e] s1]; cbn [fst snd] in *; [|exact Hm].
  now rewrite Hk.
Qed.

Lemma same_calls_read_bytes (fname : string) :
  same_calls (Figure.liftW (read_bytes fname)).
Proof.
  intros s. unfold Figure.liftW, read_bytes.
  now destruct (fs (snd s) !! fname) as [[|]|].
Qed.

Lemma same_calls_launch (fname : string) :
  same_calls (Figure.liftW (launch_external_viewer env fname)).
Proof.
  intros s. unfold Figure.liftW, launch_external_viewer, bind, subprocess_run,
    webbrowser_open_new_tab, modify. cbn [fst snd].
  destruct (Str.startswith "linux" (platform env)).
  { now destruct (exec env _). }
  destruct (String.eqb (platform env) "darwin"); [|reflexivity].
  now destruct (exec env _).
Qed.

Lemma same_calls_image (data width : pyval) : same_calls (Figure.Image env data width).
Proof. intros s. unfold Figure.Image. now destruct (IPython env). Qed.

(** The calls of a method that goes on without native calls are those of
    its first part. *)
Lemma calls_bind {A B} (m : Figure.Meth A) (k : A -> Figure.Meth B) s :
  (forall a, same_calls (k a)) ->
  calls (snd (snd (bind m k s))) = calls (snd (snd (m s))).
Proof.
  intros Hk. unfold bind.
  destruct (m s) as [[a|e] s1]; cbn [fst snd]; [apply Hk | reflexivity].
Qed.

Lemma savefig_calls fname orientation transparent crop kwargs self w n :
  Figure._name self = Some n ->
  exists new_calls,
    calls_since w
      (snd (snd (Figure.savefig env fname orientation transparent crop kwargs
                   (self, w)))) new_calls
    /\ (new_calls = [] \/ select_then_convert n new_calls).
Proof.
  intros Hn.
  destruct (savefig_cases env fname orientation transparent crop kwargs (self, w))
    as [[e ->] | (code & _ & _ & ->)].
  - exists []. split; [|now left].
    unfold calls_since; cbn [snd]. now rewrite app_nil_r.
  - destruct (psconvert_calls env
                ([("prefix", VStr (fst (os_path.splitext fname)));
                  ("fmt", VStr (if transparent then Str.upper code else code));
                  ("crop", VBool crop);
                  ("portrait", VBool (String.eqb orientation "portrait"))] ++ kwargs)
                self w n Hn) as (new_calls & Hc & Hs).
    exists new_calls. split; [exact Hc | now right].
Qed.

Lemma preview_calls fmt dpi anti_alias as_bytes self w n :
  Figure._name self = Some n ->
  exists new_calls,
    calls_since w
      (snd (snd (Figure._preview env fmt dpi anti_alias as_bytes (self, w))))
      new_calls
    /\ (new_calls = [] \/ select_then_convert n new_calls).
Proof.
  intros Hn.
  destruct (Figure._preview_dir self) as [dir|] eqn:Hdir.
  - rewrite (preview_run env _ _ _ _ _ _ _ _ Hdir Hn).
    unfold calls_since. rewrite calls_bind.
    + now apply savefig_calls.
    + intros []. destruct as_bytes; [|apply same_calls_ret].
      apply same_calls_bind; [apply same_calls_read_bytes|].
      intros ?. apply same_calls_ret.
  - exists []. split; [|now left].
    unfold Figure._preview, bind, Figure.getattr, calls_since. cbn [fst snd].
    rewrite Hdir. cbn [snd]. now rewrite app_nil_r.
Qed.

End Frames.

(** X12. Rendering asks nothing of the operating system: [psconvert],
    [savefig], the previews, the two display hooks and [show] without
    [external] start no program and open no browser tab, whether they
    return or raise, and they draw no temporary name. *)
Theorem rendering_is_quiet (env : Env) :
  (forall kwargs, quiet (Figure.psconvert env kwargs))
  /\ (forall fname orientation transparent crop kwargs,
        quiet (Figure.savefig env fname orientation transparent crop kwargs))
  /\ (forall fmt dpi anti_alias as_bytes,
        quiet (Figure._preview env fmt dpi anti_alias as_bytes))
  /\ quiet (Figure._repr_png_ env)
  /\ quiet (Figure._repr_html_ env)
  /\ (forall dpi width, quiet (Figure.show env dpi width false)).
Proof.
  split; [intros; apply quiet_psconvert|].
  split; [intros; apply quiet_savefig|].
  split; [intros; apply quiet_preview|].
  split; [apply quiet_repr_png|].
  split; [apply quiet_repr_html|].
  intros; apply quiet_show_embedded.
Qed.

(** X13. [show] with [external=True] launches the viewer only after the
    PDF preview was made: when the preview raises, [show] raises the same
    exception in the same state, and nothing was asked of the operating
    system. *)
Theorem show_no_viewer_on_failure (env : Env) (dpi width : pyval)
    (s s' : Figure.t * World) (e : exn) :
  Figure._preview env "pdf" (VInt 600) false false s = (Raise e, s') ->
  Figure.show env dpi width true s = (Raise e, s')
  /\ procs (snd s') = procs (snd s).
Proof.
  intros H. split.
  - unfold Figure.show. now rewrite (bind_raise _ _ _ _ _ H).
  - destruct (quiet_preview env "pdf" (VInt 600) false false s) as [Hp _].
    now rewrite H in Hp.
Qed.

Lemma show_no_viewer_on_failure_witness :
  fst (Figure.show Sample.linux_failing (VInt 300) (VInt 500) true
         (Sample.fig, Sample.w0)) = Raise GMTCLibError
  /\ procs (snd (snd (Figure.show Sample.linux_failing (VInt 300) (VInt 500) true
                        (Sample.fig, Sample.w0)))) = [].
Proof.
  destruct (show_no_viewer_on_failure Sample.linux_failing (VInt 300) (VInt 500)
              (Sample.fig, Sample.w0)
              (snd (Figure._preview Sample.linux_failing "pdf" (VInt 600) false false
                      (Sample.fig, Sample.w0)))
              GMTCLibError) as [Hrun Hprocs].
  - vm_compute. reflexivity.
  - rewrite Hrun. cbn [fst snd]. split; [reflexivity | exact Hprocs].
Defined.

(** X14. The previews, [show] and the two display hooks select the figure
    before they convert, as [psconvert] does: the native calls any of them
    adds are the selection of the figure by its name, with the format '-',
    followed at most by the conversion, or none at all when the operation
    raises before it reaches the engine. *)
Theorem previews_select_figure_first (env : Env) (self : Figure.t) (w : World)
    (n : string) :
  Figure._name self = Some n ->
  let selects {A} (m : Figure.Meth A) :=
    exists new_calls,
      calls_since w (snd (snd (m (self, w)))) new_calls
      /\ (new_calls = [] \/ select_then_convert n new_calls) in
  (forall fmt dpi anti_alias as_bytes,
     selects (Figure._preview env fmt dpi anti_alias as_bytes))
  /\ (forall dpi width external, selects (Figure.show env dpi width external))
  /\ selects (Figure._repr_png_ env)
  /\ selects (Figure._repr_html_ env).
Proof.
  intros Hn selects. subst selects. cbv beta.
  split; [intros; now apply preview_calls|].
  split; [|split].
  - intros dpi width external. unfold Figure.show, calls_since.
    destruct external; rewrite calls_bind.
    + now apply preview_calls.
    + intros pdf. apply same_calls_bind; [|intros ?; apply same_calls_ret].
      destruct pdf; first [apply same_calls_raise | apply same_calls_launch].
    + now apply preview_calls.
    + intros png. apply same_calls_bind; [apply same_calls_image|].
      intros ?. apply same_calls_ret.
  - unfold Figure._repr_png_, calls_since. rewrite calls_bind.
    + now apply preview_calls.
    + intros ?. apply same_calls_ret.
  - unfold Figure._repr_html_, calls_since. rewrite calls_bind.
    + now apply preview_calls.
    + intros raw. destruct raw; first [apply same_calls_raise | apply same_calls_ret].
Qed.

Lemma previews_select_figure_first_witness :
  exists new_calls,
    calls_since Sample.w0
      (snd (snd (Figure._repr_html_ Sample.linux_rendering (Sample.fig, Sample.w0))))
      new_calls
    /\ (new_calls = [] \/ select_then_convert "gmt-python-aaaaaaaa" new_calls).
Proof.
  apply (previews_select_figure_first Sample.linux_rendering Sample.fig Sample.w0
           "gmt-python-aaaaaaaa" eq_refl).
Defined.

(** X15. The two display hooks render the same file,
    <preview-dir>/<figure-name>.png.  What [_repr_png_] returns is the
    content of that file; what [_repr_html_] returns is the image tag
    <img src="data:image/png;base64,..." width="500px"> around the base64
    encoding of that content. *)
Theorem repr_hooks_preview_file (env : Env) (self : Figure.t) (w : World)
    (dir n : string) :
  Figure._preview_dir self = Some dir ->
  Figure._name self = Some n ->
  let path := os_path.join dir (n +:+ ".png") in
  (forall v s',
     Figure._repr_png_ env (self, w) = (Return v, s') ->
     exists data, v = VBytes data /\ fs (snd s') !! path = Some (File data))
  /\ (forall v s',
        Figure._repr_html_ env (self, w) = (Return v, s') ->
        exists data,
          v = VStr ("<img src=" +:+ Str.dquote +:+ "data:image/png;base64,"
                    +:+ b64encode env data +:+ Str.dquote +:+ " width="
                    +:+ Str.dquote +:+ "500px" +:+ Str.dquote +:+ ">")
          /\ fs (snd s') !! path = Some (File data)).
Proof.
  intros Hdir Hn path. split; intros v s'.
  - unfold Figure._repr_png_, bind.
    destruct (Figure._preview env "png" (VInt 70) true true (self, w))
      as [[png|e] s1] eqn:Hprev; [|discriminate].
    unfold ret. intros [= <- <-].
    now apply (preview_return env _ _ _ _ _ _ dir n _ _ Hdir Hn) in Hprev as [_ H].
  - unfold Figure._repr_html_, bind.
    destruct (Figure._preview env "png" (VInt 300) true true (self, w))
      as [[png|e] s1] eqn:Hprev; [|discriminate].
    apply (preview_return env _ _ _ _ _ _ dir n _ _ Hdir Hn) in Hprev
      as [_ (data & -> & Hfile)].
    unfold ret. intros [= <- <-]. now exists data.
Qed.

Lemma repr_hooks_preview_file_witness :
  exists data,
    fst (Figure._repr_png_ Sample.linux_rendering (Sample.fig, Sample.w0))
    = Return (VBytes data)
    /\ fs (snd (snd (Figure._repr_png_ Sample.linux_rendering (Sample.fig, Sample.w0))))
       !! Sample.preview_png = Some (File data).
Proof.
  destruct (proj1 (repr_hooks_preview_file Sample.linux_rendering Sample.fig
                     Sample.w0 "/tmp/gmt-python-aaaaaaaa-preview-aaaaaaaa"
                     "gmt-python-aaaaaaaa" eq_refl eq_refl)
              (VBytes [x2a; x2a])
              (snd (Figure._repr_png_ Sample.linux_rendering (Sample.fig, Sample.w0))))
    as (data & Hv & Hfile).
  - vm_compute. reflexivity.
  - exists data. split; [|exact Hfile].
    rewrite <- Hv. vm_compute. reflexivity.
Defined.

(** X16. Without IPython, [show] with [external=False] never returns: the
    preview is rendered first, native calls included, and the
    construction of the image then raises a [TypeError]. *)
Theorem show_without_ipython (env : Env) (dpi width : pyval)
    (s : Figure.t * World) :
  IPython env = false ->
  (forall v s', Figure.show env dpi width false s <> (Return v, s'))
  /\ (forall png s1,
        Figure._preview env "png" dpi true true s = (Return png, s1) ->
        Figure.show env dpi width false s = (Raise TypeError, s1)).
Proof.
  intros Hip. unfold Figure.show, Figure.Image, bind. rewrite Hip.
  destruct (Figure._preview env "png" dpi true true s) as [[png|e] s1].
  - split; [discriminate|]. now intros png' s1' [= <- <-].
  - split; discriminate.
Qed.

Lemma show_without_ipython_witness :
  Figure.show Sample.headless (VInt 300) (VInt 500) false (Sample.fig, Sample.w0)
  = (Raise TypeError,
     snd (Figure._preview Sample.headless "png" (VInt 300) true true
            (Sample.fig, Sample.w0))).
Proof.
  apply (proj2 (show_without_ipython Sample.headless (VInt 300) (VInt 500)
                  (Sample.fig, Sample.w0) eq_refl) (VBytes [x2a; x2a])).
  vm_compute. reflexivity.
Defined.

(** X17. No operation on a figure assigns any of its attributes: after
    [psconvert], [savefig], [show], a preview, a display hook or the
    finaliser the object is the one it was, so that the directory the
    finaliser removes is the one the construction made. *)
Theorem figure_attributes_constant (env : Env) :
  (forall kwargs, keeps_self (Figure.psconvert env kwargs))
  /\ (forall fname orientation transparent crop kwargs,
        keeps_self (Figure.savefig env fname orientation transparent crop kwargs))
  /\ (forall dpi width external, keeps_self (Figure.show env dpi width external))
  /\ (forall fmt dpi anti_alias as_bytes,
        keeps_self (Figure._preview env fmt dpi anti_alias as_bytes))
  /\ keeps_self (Figure._repr_png_ env)
  /\ keeps_self (Figure._repr_html_ env)
  /\ keeps_self Figure.__del__.
Proof.
  split; [intros; apply keeps_psconvert|].
  split; [intros; apply keeps_savefig|].
  split; [intros; apply keeps_show|].
  split; [intros; apply keeps_preview|].
  split; [apply keeps_repr_png|].
  split; [apply keeps_repr_html|].
  apply keeps_del.
Qed.

(** X18. A [savefig] that returns has checked its arguments and converted:
    the orientation is one of the two, the extension is in the table,
    transparency was asked for png only, and the log of native calls has
    grown by exactly the selection of the figure and one conversion, both
    accepted by the engine.  The figure is unchanged. *)
Theorem savefig_return (env : Env) (fname orientation : string)
    (transparent crop : bool) (kwargs : dict pyval) (self : Figure.t) (w : World)
    (n : string) (s' : Figure.t * World) :
  Figure._name self = Some n ->
  Figure.savefig env fname orientation transparent crop kwargs (self, w)
  = (Return tt, s') ->
  In orientation orientations
  /\ In (extension fname) supported
  /\ (transparent = true -> extension fname = "png")
  /\ fst s' = self
  /\ exists args,
       calls (snd s') = calls w ++ [("figure", n +:+ " -"); ("psconvert", args)].
Proof.
  intros Hn Hrun.
  destruct (savefig_cases env fname orientation transparent crop kwargs (self, w))
    as [[e He] | (code & Hcode & Ht & Hcall)].
  { rewrite He in Hrun. discriminate. }
  assert (Ho : In orientation orientations).
  { destruct (existsb (String.eqb orientation) orientations) eqn:Ho.
    - apply orientation_valid in Ho. unfold orientations. cbn [In].
      destruct Ho as [->| ->]; tauto.
    - rewrite savefig_bad_orientation in Hrun by exact Ho. discriminate. }
  split; [exact Ho|].
  split. { apply fmts_supported. unfold Dict.mem. now rewrite Hcode. }
  split; [exact Ht|].
  rewrite Hcall in Hrun. unfold Figure.psconvert in Hrun.
  rewrite (psconvert_body_run env _ _ _ _ Hn), select_convert_run in Hrun.
  destruct (engine env (calls w ++ [("figure", n +:+ " -")]) (fs w)) as [fs1|];
    [|discriminate].
  match type of Hrun with
  | context [engine env ?l fs1] => destruct (engine env l fs1); [|discriminate]
  end.
  injection Hrun as <-. cbn [fst snd calls]. split; [reflexivity|].
  eexists. now rewrite <- app_assoc.
Qed.

Lemma savefig_return_witness :
  exists args,
    calls (snd (snd (Figure.savefig Sample.linux "out.eps" "landscape" false true []
                       (Sample.fig, Sample.w0))))
    = calls Sample.w0 ++ [("figure", "gmt-python-aaaaaaaa -"); ("psconvert", args)].
Proof.
  destruct (savefig_return Sample.linux "out.eps" "landscape" false true []
              Sample.fig Sample.w0 "gmt-python-aaaaaaaa"
              (snd (Figure.savefig Sample.linux "out.eps" "landscape" false true []
                      (Sample.fig, Sample.w0))) eq_refl)
    as (_ & _ & _ & _ & args & Hcalls).
  - vm_compute. reflexivity.
  - now exists args.
Defined.

(** X19. On Linux and on macOS the launcher, 'xdg-open' or 'open', is
    started on the file with both output streams discarded, and its exit
    status plays no part: whatever it is, [launch_external_viewer]
    returns normally.  When the launcher cannot be started, the
    [FileNotFoundError] goes through and the world is as before. *)
Theorem launch_external_viewer_status_ignored (env : Env) (fname cmd : string)
    (w : World) :
  viewer_command (platform env) = Some cmd ->
  (exec env [cmd; fname] = None ->
   launch_external_viewer env fname w = (Raise FileNotFoundError, w))
  /\ (forall status,
        exec env [cmd; fname] = Some status ->
        fst (launch_external_viewer env fname w) = Return tt
        /\ In (Popen [cmd; fname] DEVNULL DEVNULL)
              (procs (snd (launch_external_viewer env fname w)))).
Proof.
  intros Hcmd. rewrite (launch_run env _ _ _ Hcmd).
  unfold bind, subprocess_run. split.
  - now intros ->.
  - intros status ->. cbn [fst snd procs set_procs]. split; [reflexivity|].
    apply in_or_app. right. now left.
Qed.

Lemma launch_external_viewer_status_ignored_witness :
  fst (launch_external_viewer Sample.linux_failing "fig.pdf" Sample.w0) = Return tt
  /\ In (Popen ["xdg-open"; "fig.pdf"] DEVNULL DEVNULL)
        (procs (snd (launch_external_viewer Sample.linux_failing "fig.pdf" Sample.w0))).
Proof.
  apply (proj2 (launch_external_viewer_status_ignored Sample.linux_failing
                  "fig.pdf" "xdg-open" Sample.w0 eq_refl) 1%Z eq_refl).
Defined.

(** X20. A [savefig] that passes its checks, with no additional keyword
    named prefix, fmt, crop or portrait, is the call of [psconvert] with
    four keywords of its own followed by the additional keywords as they
    were given: [prefix] is the file name without the dot and the
    extension, [fmt] the code the table of six formats has for the
    extension, in upper case when transparency is asked, [crop] the
    argument, and [portrait] whether the orientation is 'portrait'. *)
Theorem savefig_forwards_keywords (env : Env) (fname orientation : string)
    (transparent crop : bool) (kwargs : dict pyval) (s : Figure.t * World)
    (code : string) :
  In orientation orientations ->
  Dict.get (extension fname) Figure.fmts = Some code ->
  (transparent = true -> extension fname = "png") ->
  (forall k, In k savefig_owned -> Dict.mem k kwargs = false) ->
  In (extension fname, code)
     [("png", "g"); ("pdf", "f"); ("jpg", "j"); ("bmp", "b"); ("eps", "e"); ("tif", "t")]
  /\ fname = fst (os_path.splitext fname) +:+ "." +:+ extension fname
  /\ Figure.savefig env fname orientation transparent crop kwargs s =
     Figure.psconvert env
       ([("prefix", VStr (fst (os_path.splitext fname)));
         ("fmt", VStr (if transparent then Str.upper code else code));
         ("crop", VBool crop);
         ("portrait", VBool (String.eqb orientation "portrait"))] ++ kwargs) s.
Proof.
  intros Ho Hg Ht Hc.
  split; [now apply fmts_table|].
  split; [now apply savefig_fname_parts with (code := code)|].
  apply savefig_call; try assumption. now apply orientation_listed.
Qed.

Lemma savefig_forwards_keywords_witness :
  "maps/out.jpg" = fst (os_path.splitext "maps/out.jpg") +:+ "." +:+ extension "maps/out.jpg"
  /\ Figure.savefig Sample.linux "maps/out.jpg" "landscape" false false
       [("E", VInt 150)] (Sample.fig, Sample.w0) =
     Figure.psconvert Sample.linux
       ([("prefix", VStr "maps/out"); ("fmt", VStr "j"); ("crop", VBool false);
         ("portrait", VBool false)] ++ [("E", VInt 150)]) (Sample.fig, Sample.w0).
Proof.
  destruct (savefig_forwards_keywords Sample.linux "maps/out.jpg" "landscape"
              false false [("E", VInt 150)] (Sample.fig, Sample.w0) "j")
    as (_ & H2 & H3).
  - right; left; reflexivity.
  - reflexivity.
  - discriminate.
  - intros k Hk. repeat destruct Hk as [<-|Hk]; try reflexivity. destruct Hk.
  - split; [exact H2 | exact H3].
Defined.
